(** * cleye: deriving a click command line from a function signature

    A shallow embedding of [cleye.py] and the properties of its
    specification.  The program is one pass over a function's metadata:
    [click_type] maps a declared type to a click validator,
    [decorators_from_dicts] turns each parameter into an option or an
    argument, [signature_to_decorators] reads a signature,
    [command_from_decorators] applies the decorators and [autoclick]
    collects the commands.

    Python objects are values of [pyobj]; a call that can raise returns a
    [result].  Strings are [string]s, one character per code point below
    256, so that [String.length] is Python's [len].  Where the runtime's
    versions differ ([typing], [types.GenericAlias]) the model follows
    CPython 3.11 and later. *)

From Stdlib Require Import List String Ascii ZArith Bool Arith Lia.
Import ListNotations.
Local Open Scope string_scope.
Local Open Scope list_scope.
Set Warnings "-register-all".

(** ** Exceptions *)

Inductive exn : Type :=
| TypeError
| AttributeError
| IndexError
| ValueError
| UnboundLocalError.

Inductive result (A : Type) : Type :=
| Ok (a : A)
| Raise (e : exn).

Arguments Ok {A} a.
Arguments Raise {A} e.

Definition bind {A B : Type} (c : result A) (k : A -> result B) : result B :=
  match c with
  | Ok a => k a
  | Raise e => Raise e
  end.

Notation "x <- c ;; k" := (bind c (fun x => k))
  (at level 61, c at next level, right associativity).

Definition raises {A : Type} (c : result A) : bool :=
  match c with
  | Ok _ => false
  | Raise _ => true
  end.

(** Mapping a call that can raise over a list, left to right. *)
Fixpoint map_result {A B : Type} (f : A -> result B) (l : list A)
  : result (list B) :=
  match l with
  | [] => Ok []
  | a :: rest =>
      b <- f a ;;
      bs <- map_result f rest ;;
      Ok (b :: bs)
  end.

(** ** Classes

    The classes of the runtime that the program names, and classes a user
    derives from them.  [Derived name bases] is a class statement [name]
    with the base classes [bases]; without bases it derives from [object]. *)

Inductive builtin : Type :=
| Cobject
| Ctype
| CNoneType
| Cbool
| Cint
| Cfloat
| Cstr
| Ctuple
| Clist
| Cset
| Cdict
| Cdate
| Cdatetime        (* datetime.datetime *)
| CUUID            (* uuid.UUID *)
| CPurePath
| CPath            (* pathlib.Path *)
| C_empty          (* inspect._empty *)
| CAny             (* typing.Any, where the runtime makes it a class *)
| C_GenericAlias   (* typing._GenericAlias *)
| C_types_GenericAlias.  (* types.GenericAlias *)

Scheme Equality for builtin.

Inductive pyclass : Type :=
| Builtin (b : builtin)
| Derived (name : string) (bases : list pyclass).

Fixpoint pyclass_eqb (c d : pyclass) {struct c} : bool :=
  match c, d with
  | Builtin a, Builtin b => builtin_beq a b
  | Derived n bs, Derived m cs =>
      String.eqb n m &&
      (fix all2 (l1 l2 : list pyclass) {struct l1} : bool :=
         match l1, l2 with
         | [], [] => true
         | x :: xs, y :: ys => pyclass_eqb x y && all2 xs ys
         | _, _ => false
         end) bs cs
  | _, _ => false
  end.

(** The inheritance the runtime fixes between its own classes. *)
Definition builtin_sub (b b' : builtin) : bool :=
  builtin_beq b b' ||
  match b, b' with
  | _, Cobject => true
  | Cbool, Cint => true
  | Cdatetime, Cdate => true
  | CPath, CPurePath => true
  | _, _ => false
  end.

Definition is_object (c : pyclass) : bool :=
  match c with
  | Builtin Cobject => true
  | _ => false
  end.

(** [issubclass(c, d)] for two classes. *)
Fixpoint subclass (c d : pyclass) {struct c} : bool :=
  pyclass_eqb c d ||
  match c with
  | Builtin b =>
      match d with
      | Builtin b' => builtin_sub b b'
      | Derived _ _ => false
      end
  | Derived _ bases => is_object d || existsb (fun a => subclass a d) bases
  end.

(** ** Objects *)

Inductive pyobj : Type :=
| PNone
| PBool (b : bool)
| PInt (n : Z)
| PFloat (bits : Z)                              (* a float, by its IEEE 754 bits *)
| PStr (s : string)
| PTuple (items : list pyobj)
| PDict (entries : list (string * pyobj))        (* insertion ordered *)
| PClass (c : pyclass)
| PGenericAlias (origin : pyobj) (args : list pyobj)  (* __origin__, __args__ *)
| POther (tag : string)                          (* an instance of a class of its own *)
| PTypesAlias (origin : pyobj) (args : list pyobj).   (* types.GenericAlias: list[str] *)

Definition type_of (x : pyobj) : pyclass :=
  match x with
  | PNone => Builtin CNoneType
  | PBool _ => Builtin Cbool
  | PInt _ => Builtin Cint
  | PFloat _ => Builtin Cfloat
  | PStr _ => Builtin Cstr
  | PTuple _ => Builtin Ctuple
  | PDict _ => Builtin Cdict
  | PClass _ => Builtin Ctype
  | PGenericAlias _ _ => Builtin C_GenericAlias
  | POther tag => Derived tag []
  | PTypesAlias _ _ => Builtin C_types_GenericAlias
  end.

Definition isinstance (x : pyobj) (c : pyclass) : bool :=
  subclass (type_of x) c.

(** The builtin [issubclass]: both arguments must be classes. *)
Definition issubclass (x y : pyobj) : result bool :=
  match x, y with
  | PClass c, PClass d => Ok (subclass c d)
  | _, _ => Raise TypeError
  end.

(** [x is <builtin class>]. *)
Definition is_builtin (x : pyobj) (b : builtin) : bool :=
  match x with
  | PClass (Builtin b') => builtin_beq b' b
  | _ => false
  end.

(** [getattr(x, "__args__")]: only a generic alias carries the attribute. *)
Definition getattr_args (x : pyobj) : option (list pyobj) :=
  match x with
  | PGenericAlias _ args => Some args
  | PTypesAlias _ args => Some args
  | _ => None
  end.

(** ** istype *)

Definition istype (x y : pyobj) : result bool :=
  if isinstance x (Builtin Ctype) then issubclass x y
  else Ok false.

(** ** click_type

    What [click_type] returns: [None], the class itself, or one of click's
    parameter types, each kept as the call that builds it. *)

Inductive validator : Type :=
| NoValidator                       (* None *)
| Coerce (c : pyclass)              (* return object *)
| DateTime                          (* click.DateTime() *)
| Tuple (types : list pyobj)        (* click.Tuple(object.__args__) *)
| UUID (default : pyobj)            (* click.UUID(default), see ParamType_call *)
| Choice (choices : pyobj)          (* click.Choice(object) *)
| Path                              (* click.Path() *)
| IntRange (args : list pyobj)      (* click.IntRange, called on the items *)
| FloatRange (args : list pyobj).   (* click.FloatRange, called on the items *)

Fixpoint click_type (object : pyobj) (default : pyobj) {struct object}
  : result validator :=
  match object with
  | PGenericAlias _ args =>
      match args with
      | a :: _ => click_type a default
      | [] => Raise IndexError
      end
  | PClass c =>
      if subclass c (Builtin Cdatetime) then Ok DateTime
      else if subclass c (Builtin Ctuple) then
        match getattr_args object with
        | Some types => Ok (Tuple types)
        | None => Raise AttributeError
        end
      else if subclass c (Builtin CUUID) then Ok (UUID default)
      else if is_builtin object Clist then Ok NoValidator
      else if subclass c (Builtin Cset) then Ok (Choice object)
      else if subclass c (Builtin CPath) then Ok Path
      else if is_builtin object Cobject || is_builtin object CAny
      then Ok NoValidator
      else Ok (Coerce c)
  | PTuple items =>
      if forallb (fun x => isinstance x (Builtin Cint)) (firstn 2 items)
      then Ok (IntRange items)
      else if forallb (fun x => isinstance x (Builtin Cfloat)) (firstn 2 items)
      then Ok (FloatRange items)
      else Ok NoValidator
  | _ => Ok NoValidator
  end.

(** ** The call click.UUID(default)

    [click.UUID] is not a class of click but one of its parameter types,
    an instance of [UUIDParameterType].  Calling a parameter type is
    [ParamType.__call__]: it returns [None] for [None] and the converted
    value otherwise.  [convert] stands for the conversion of click, which
    returns a [uuid.UUID] object or raises. *)
Definition ParamType_call (convert : pyobj -> result pyobj) (value : pyobj)
  : result pyobj :=
  match value with
  | PNone => Ok PNone
  | _ => convert value
  end.

(** ** Dictionaries

    A Python [dict] with string keys keeps its keys in insertion order: an
    association list without repeated keys, built by [dict_set]. *)

Definition dict (V : Type) : Type := list (string * V).

Fixpoint dict_get {V : Type} (d : dict V) (k : string) : option V :=
  match d with
  | [] => None
  | (k', v) :: rest => if String.eqb k' k then Some v else dict_get rest k
  end.

Definition dict_mem {V : Type} (k : string) (d : dict V) : bool :=
  match dict_get d k with
  | Some _ => true
  | None => false
  end.

(** [d[k] = v]: a present key keeps its place, a new key goes last. *)
Fixpoint dict_set {V : Type} (d : dict V) (k : string) (v : V) : dict V :=
  match d with
  | [] => [(k, v)]
  | (k', v') :: rest =>
      if String.eqb k' k then (k', v) :: rest
      else (k', v') :: dict_set rest k v
  end.

(** A dict comprehension over the pairs [items]. *)
Definition dict_of_items {V : Type} (items : list (string * V)) : dict V :=
  fold_left (fun d kv => dict_set d (fst kv) (snd kv)) items [].

Definition keys {V : Type} (d : dict V) : list string := map fst d.

(** The keywords of a call that passes those of [a], then those of [b]: a
    repeated keyword is a [TypeError]. *)
Definition keywords (a b : dict pyobj) : result (dict pyobj) :=
  if existsb (fun kv => dict_mem (fst kv) a) b then Raise TypeError
  else Ok (a ++ b).

(** ** Signatures, as [inspect.signature] reports them *)

Inductive ParameterKind : Type :=
| POSITIONAL_ONLY
| POSITIONAL_OR_KEYWORD
| VAR_POSITIONAL
| KEYWORD_ONLY
| VAR_KEYWORD.

Definition is_var_positional (k : ParameterKind) : bool :=
  match k with
  | VAR_POSITIONAL => true
  | _ => false
  end.

(** [inspect._empty] stands for a missing annotation or default. *)
Definition inspect_empty : pyobj := PClass (Builtin C_empty).

Record parameter : Type := {
  name : string;
  kind : ParameterKind;
  default : pyobj;
  annotation : pyobj
}.

Record pyfunction : Type := {
  fn_name : string;
  parameters : list parameter;   (* inspect.signature(f).parameters, in order *)
  fn_doc : pyobj                 (* inspect.getdoc(f) *)
}.

(** The object [typing.List[a]], for a type argument [a] that [typing]
    has accepted. *)
Definition List_alias (a : pyobj) : pyobj :=
  PGenericAlias (PClass (Builtin Clist)) [a].

(** What [typing] makes of a type argument: [None] stands for its class, a
    string for a forward reference. *)
Definition type_convert (x : pyobj) : pyobj :=
  match x with
  | PNone => PClass (Builtin CNoneType)
  | PStr _ => POther "ForwardRef"
  | _ => x
  end.

(** The type argument of the subscription [typing.List[x]].  A tuple [x]
    is the list of the arguments, of which [typing.List] takes one, and no
    argument may itself be a tuple.  (The special forms that [typing]
    refuses as arguments are not among the objects of the model.) *)
Definition type_argument (x : pyobj) : option pyobj :=
  match x with
  | PTuple [PTuple _] => None
  | PTuple [y] => Some (type_convert y)
  | PTuple _ => None
  | _ => Some (type_convert x)
  end.

(** [typing.List[x]]: a rejected argument is a [TypeError]. *)
Definition typing_List (x : pyobj) : result pyobj :=
  match type_argument x with
  | Some a => Ok (List_alias a)
  | None => Raise TypeError
  end.

(** ** Decorators

    A click decorator is kept as the call that makes it. *)

Record option_attrs : Type := {
  opt_decl : string;
  opt_type : validator;
  opt_default : pyobj;
  opt_show_default : bool;
  opt_is_flag : bool
}.

Record argument_attrs : Type := {
  arg_decl : string;
  arg_type : validator;
  arg_nargs : option Z           (* None: the keyword is not passed *)
}.

Inductive decorator : Type :=
| click_option (o : option_attrs)
| click_argument (a : argument_attrs)
| click_pass_context.

Section Synthesis.

(** [stringcase.spinalcase], a function of the stringcase package. *)
Variable spinalcase : string -> string.

Definition flag_name (k : string) : string :=
  ((if Nat.eqb (String.length k) 1 then "-" else "--") ++ spinalcase k)%string.

(** The body of the loop of [decorators_from_dicts] for the item [k, v]. *)
Definition decorator_for (defaults : dict pyobj) (k : string) (v : pyobj)
  : result decorator :=
  match dict_get defaults k with
  | Some d =>
      t <- click_type v d ;;
      Ok (click_option {| opt_decl := flag_name k;
                          opt_type := t;
                          opt_default := d;
                          opt_show_default := true;
                          opt_is_flag := is_builtin v Cbool |})
  | None =>
      variadic <- (if isinstance v (Builtin C_GenericAlias) then Ok true
                   else istype v (PClass (Builtin Clist))) ;;
      if (variadic : bool) then
        match
          match getattr_args v with
          | Some args => args
          | None => [PClass (Builtin Cstr)]
          end
        with
        | a :: _ =>
            t <- click_type a PNone ;;
            Ok (click_argument {| arg_decl := spinalcase k;
                                  arg_type := t;
                                  arg_nargs := Some (-1)%Z |})
        | [] => Raise IndexError
        end
      else
        t <- click_type v PNone ;;
        Ok (click_argument {| arg_decl := spinalcase k;
                              arg_type := t;
                              arg_nargs := None |})
  end.

Fixpoint decorators_from_dicts (annotations : dict pyobj)
  (defaults : dict pyobj) (decorators : list decorator)
  : result (list decorator) :=
  match annotations with
  | [] => Ok decorators
  | (k, v) :: rest =>
      d <- decorator_for defaults k v ;;
      decorators_from_dicts rest defaults (decorators ++ [d])
  end.

Definition decorators_from_dict (object : dict pyobj)
  : result (list decorator) :=
  match
    match dict_get object "__annotations__" with
    | Some a => a
    | None => PDict []
    end
  with
  | PDict annotations => decorators_from_dicts annotations object []
  | _ => Raise AttributeError
  end.

(** A module, by its namespace [vars(object)]. *)
Record pymodule : Type := {
  vars : dict pyobj
}.

Definition decorators_from_module (object : pymodule)
  : result (list decorator) :=
  decorators_from_dict (vars object).

(** The two dict comprehensions of [signature_to_decorators]; the first
    one gives the parameter [v] the value [declared_type v], and raises
    where that raises. *)
Definition declared_type (v : parameter) : result pyobj :=
  if is_var_positional (kind v) then typing_List (annotation v)
  else Ok (annotation v).

Definition signature_annotations (signature : list parameter)
  : result (dict pyobj) :=
  items <- map_result (fun v => t <- declared_type v ;; Ok (name v, t))
             (filter (fun v => negb (String.eqb (name v) "ctx")) signature) ;;
  Ok (dict_of_items items).

Definition signature_defaults (signature : list parameter) : dict pyobj :=
  dict_of_items
    (map (fun v => (name v, default v))
         (filter (fun v => negb (is_builtin (default v) C_empty)) signature)).

Definition signature_to_decorators (object : pyfunction)
  (decorators : list decorator) : result (list decorator) :=
  let signature := parameters object in
  annotations <- signature_annotations signature ;;
  ds <- decorators_from_dicts annotations (signature_defaults signature) [] ;;
  let decorators := decorators ++ ds in
  Ok (match signature with
      | v :: _ =>
          if String.eqb (name v) "ctx"
          then decorators ++ [click_pass_context]
          else decorators
      | [] => decorators
      end).

(** ** Assembling a command

    A decorator called on a callable is recorded on it: [applied] lists the
    decorators in the order they were called.  click's [option] and
    [argument] append their parameter to the callable, [click.command]
    reads that list backwards. *)

Inductive callee : Type :=
| Function (f : pyfunction)
| Decorator (d : decorator).

Record decorated : Type := {
  target : callee;
  applied : list decorator
}.

Definition undecorated (c : callee) : decorated :=
  {| target := c; applied := [] |}.

Definition call_decorator (d : decorator) (f : decorated) : decorated :=
  {| target := target f; applied := applied f ++ [d] |}.

Record Command : Type := {
  callback : decorated;
  attrs : dict pyobj             (* the keywords click.command was given *)
}.

Definition click_command (attrs : dict pyobj) (f : decorated) : Command :=
  {| callback := f; attrs := attrs |}.

Definition is_param (d : decorator) : bool :=
  match d with
  | click_pass_context => false
  | _ => true
  end.

(** [Command.params]: the parameters of the command, in the order of its
    help text and of its positional arguments. *)
Definition params (c : Command) : list decorator :=
  rev (filter is_param (applied (callback c))).

Definition no_args_is_help (c : Command) : option pyobj :=
  dict_get (attrs c) "no_args_is_help".

(** [bool(decorators)] *)
Definition nonempty {A : Type} (l : list A) : bool :=
  match l with
  | [] => false
  | _ :: _ => true
  end.

(** The starred assignment that takes the last item apart from the rest. *)
Definition unpack_last {A : Type} (l : list A) : result (list A * A) :=
  match rev l with
  | [] => Raise ValueError
  | x :: r => Ok (rev r, x)
  end.

(** [settings] are the keywords of the call: one named [command] would
    give the first parameter a second value, a [TypeError] of the call. *)
Definition command_from_decorators (command : option callee)
  (decorators : list decorator) (settings : dict pyobj) : result Command :=
  if dict_mem "command" settings then Raise TypeError else
  dc <- match command with
        | None => p <- unpack_last decorators ;; Ok (fst p, Decorator (snd p))
        | Some c => Ok (decorators, c)
        end ;;
  let decorators := fst dc in
  let command :=
    fold_left (fun command decorator => call_decorator decorator command)
              (rev decorators) (undecorated (snd dc)) in
  kw <- keywords [("no_args_is_help", PBool (nonempty decorators))] settings ;;
  Ok (click_command kw command).

(** ** autoclick *)

Record Group : Type := {
  commands : list Command        (* the commands add_command was given *)
}.

Definition add_command (app : Group) (c : Command) : Group :=
  {| commands := commands app ++ [c] |}.

(** An item handed to [autoclick]. *)
Inductive item : Type :=
| ICommand (c : Command)         (* isinstance(command, click.Command) *)
| IFunction (f : pyfunction)     (* isinstance(command, types.FunctionType) *)
| IDict (d : dict pyobj)         (* isinstance(command, dict) *)
| IOther (v : pyobj).

(** What the variable [command] holds, and what [autoclick] returns. *)
Inductive returned : Type :=
| RCommand (c : Command)
| RGroup (g : Group)
| ROther (v : pyobj).

(** The loop of [autoclick]: the group [app] and the variable [command]
    are carried from item to item. *)
Fixpoint autoclick_loop (object : list item) (settings : dict pyobj)
  (app : Group) (command : option returned)
  : result (Group * option returned) :=
  match object with
  | [] => Ok (app, command)
  | ICommand c :: rest =>
      autoclick_loop rest settings (add_command app c) (Some (RCommand c))
  | IFunction f :: rest =>
      decorators <- signature_to_decorators f [] ;;
      kw <- keywords settings [("help", fn_doc f)] ;;
      c <- command_from_decorators (Some (Function f)) decorators kw ;;
      autoclick_loop rest settings (add_command app c) (Some (RCommand c))
  | IDict d :: rest =>
      decorators <- decorators_from_dict d ;;
      c <- command_from_decorators None decorators settings ;;
      autoclick_loop rest settings app (Some (RCommand c))
  | IOther v :: rest =>
      autoclick_loop rest settings app (Some (ROther v))
  end.

Definition autoclick (object : list item) (group : option Group)
  (settings : dict pyobj) : result returned :=
  let app := match group with
             | Some g => g
             | None => {| commands := [] |}
             end in
  st <- autoclick_loop object settings app None ;;
  if Nat.eqb (List.length object) 1 then
    match snd st with
    | Some command => Ok command
    | None => Raise UnboundLocalError
    end
  else Ok (RGroup (fst st)).

End Synthesis.

(** ** Auxiliary definitions for the statements *)

(** The parameters of a signature that are not named [ctx]. *)
Definition visible (signature : list parameter) : list parameter :=
  filter (fun v => negb (String.eqb (name v) "ctx")) signature.

(** Whether the first parameter of a signature is named [ctx]. *)
Definition first_is_ctx (signature : list parameter) : bool :=
  match signature with
  | v :: _ => String.eqb (name v) "ctx"
  | [] => false
  end.

(** The name a decorator declares on the command line. *)
Definition declaration (d : decorator) : option string :=
  match d with
  | click_option o => Some (opt_decl o)
  | click_argument a => Some (arg_decl a)
  | click_pass_context => None
  end.

(** The object at the end of the first type arguments of [x]: what
    [click_type] comes to after its recursive calls, if it gets there. *)
Fixpoint innermost (x : pyobj) : option pyobj :=
  match x with
  | PGenericAlias _ args =>
      match args with
      | a :: _ => innermost a
      | [] => None
      end
  | _ => Some x
  end.

(** A class derived from [list], which the loop of
    [decorators_from_dicts] makes variadic without mapping it. *)
Definition list_class (v : pyobj) : bool :=
  match v with
  | PClass c => subclass c (Builtin Clist)
  | _ => false
  end.

(** Whether the loop of [decorators_from_dicts] can make the decorator of
    an item of type [t]: [click_type] maps [t], or the item has no default
    and [t] is a class derived from [list]. *)
Definition mappable (has_default : bool) (t : pyobj) : bool :=
  negb (raises (click_type t PNone)) || (negb has_default && list_class t).

Definition all_mappable (annotations defaults : dict pyobj) : bool :=
  forallb (fun kv => mappable (dict_mem (fst kv) defaults) (snd kv))
          annotations.

(** Whether each parameter not named [ctx] has a declared type, and one
    that can be mapped. *)
Definition readable (signature : list parameter) : bool :=
  forallb (fun q => match declared_type q with
                    | Ok t => mappable (negb (is_builtin (default q) C_empty)) t
                    | Raise _ => false
                    end)
          (filter (fun v => negb (String.eqb (name v) "ctx")) signature).

(** The items that one of the three branches of [autoclick] takes. *)
Definition supported (i : item) : bool :=
  match i with
  | IOther _ => false
  | _ => true
  end.

(** The group a run of the loop of [autoclick] ends with. *)
Definition loop_group (r : result (Group * option returned)) : result Group :=
  match r with
  | Ok st => Ok (fst st)
  | Raise e => Raise e
  end.

(** ** stringcase.spinalcase on ASCII names

    The function of the stringcase package: hyphens, dots and blanks
    become underscores, the first character is lowered, every later
    capital gets an underscore before it and is lowered, and at last every
    underscore becomes a hyphen. *)

Definition is_upper (c : ascii) : bool :=
  let n := nat_of_ascii c in Nat.leb 65 n && Nat.leb n 90.

Definition lowercase (c : ascii) : ascii :=
  if is_upper c then ascii_of_nat (nat_of_ascii c + 32) else c.

Definition is_separator (c : ascii) : bool :=
  let n := nat_of_ascii c in
  Nat.eqb n 45 || Nat.eqb n 46 || Nat.eqb n 32 || (Nat.leb 9 n && Nat.leb n 13).

Fixpoint map_string (f : ascii -> string) (s : string) : string :=
  match s with
  | EmptyString => EmptyString
  | String c rest => (f c ++ map_string f rest)%string
  end.

Definition snakecase (s : string) : string :=
  match map_string (fun c => String (if is_separator c then "_"%char else c)
                                     EmptyString) s with
  | EmptyString => EmptyString
  | String c rest =>
      String (lowercase c)
        (map_string (fun x => if is_upper x
                              then String "_"%char (String (lowercase x) EmptyString)
                              else String x EmptyString) rest)
  end.

Definition stringcase_spinalcase (s : string) : string :=
  map_string (fun c => String (if Ascii.eqb c "_"%char then "-"%char else c)
                              EmptyString) (snakecase s).

(** ** Sample inputs *)

Definition str_cls : pyobj := PClass (Builtin Cstr).
Definition int_cls : pyobj := PClass (Builtin Cint).
Definition bool_cls : pyobj := PClass (Builtin Cbool).

Definition positional (k : string) (a : pyobj) : parameter :=
  {| name := k; kind := POSITIONAL_OR_KEYWORD;
     default := inspect_empty; annotation := a |}.

(** [def greet(name: str, *, shout: bool = False)] *)
Definition greet : pyfunction :=
  {| fn_name := "greet";
     parameters :=
       [ positional "name" str_cls;
         {| name := "shout"; kind := KEYWORD_ONLY;
            default := PBool false; annotation := bool_cls |} ];
     fn_doc := PStr "Greet somebody." |}.

(** [def copy(paths: typing.List[str])] *)
Definition copy : pyfunction :=
  {| fn_name := "copy";
     parameters := [ positional "paths" (List_alias str_cls) ];
     fn_doc := PNone |}.

(** [def gather( *values: int)] *)
Definition gather : pyfunction :=
  {| fn_name := "gather";
     parameters :=
       [ {| name := "values"; kind := VAR_POSITIONAL;
            default := inspect_empty; annotation := int_cls |} ];
     fn_doc := PNone |}.

(** [def f(a, b, c)] *)
Definition f_abc : pyfunction :=
  {| fn_name := "f";
     parameters := [ positional "a" inspect_empty;
                     positional "b" inspect_empty;
                     positional "c" inspect_empty ];
     fn_doc := PNone |}.

(** [def report(ctx, n: int = 1)] *)
Definition report : pyfunction :=
  {| fn_name := "report";
     parameters :=
       [ positional "ctx" inspect_empty;
         {| name := "n"; kind := POSITIONAL_OR_KEYWORD;
            default := PInt 1; annotation := int_cls |} ];
     fn_doc := PNone |}.

(** [def late(a: str, ctx)] *)
Definition late : pyfunction :=
  {| fn_name := "late";
     parameters := [ positional "a" str_cls; positional "ctx" inspect_empty ];
     fn_doc := PNone |}.

(** [{"__annotations__": {"a": str, "b": int}}] *)
Definition mapping : dict pyobj :=
  [ ("__annotations__", PDict [("a", str_cls); ("b", int_cls)]) ].

(** The decorators of [greet]. *)
Definition greet_decorators : list decorator :=
  [ click_argument {| arg_decl := "name";
                      arg_type := Coerce (Builtin Cstr);
                      arg_nargs := None |};
    click_option {| opt_decl := "--shout";
                    opt_type := Coerce (Builtin Cbool);
                    opt_default := PBool false;
                    opt_show_default := true;
                    opt_is_flag := true |} ].

(** [class Token(uuid.UUID)] *)
Definition Token : pyclass := Derived "Token" [Builtin CUUID].

(** The two dicts that [signature_to_decorators] makes of [greet]. *)
Definition greet_annotations : dict pyobj :=
  [("name", str_cls); ("shout", bool_cls)].

Definition greet_defaults : dict pyobj := [("shout", PBool false)].


(** A module with the lines [host: str], [port: int = 8080] and
    [debug = True]. *)
Definition conf : pymodule :=
  {| vars := [ ("__name__", PStr "conf");
               ("__annotations__",
                PDict [("host", str_cls); ("port", int_cls)]);
               ("port", PInt 8080);
               ("debug", PBool true) ] |}.

Definition conf_decorators : list decorator :=
  [ click_argument {| arg_decl := "host";
                      arg_type := Coerce (Builtin Cstr);
                      arg_nargs := None |};
    click_option {| opt_decl := "--port";
                    opt_type := Coerce (Builtin Cint);
                    opt_default := PInt 8080;
                    opt_show_default := true;
                    opt_is_flag := false |} ].

(** The command [command_from_decorators] makes of [greet]. *)
Definition greet_command : Command :=
  {| callback := {| target := Function greet;
                    applied := rev greet_decorators |};
     attrs := [("no_args_is_help", PBool true)] |}.

(** A command made elsewhere. *)
Definition other_command : Command :=
  {| callback := {| target := Function f_abc; applied := [] |};
     attrs := [("name", PStr "other")] |}.

(** The command [autoclick] makes of [greet]: its docstring is the help. *)
Definition greet_help_command : Command :=
  {| callback := {| target := Function greet;
                    applied := rev greet_decorators |};
     attrs := [("no_args_is_help", PBool true);
               ("help", PStr "Greet somebody.")] |}.

(** The command made of the decorators of [greet] without a callable. *)
Definition bodyless_command : Command :=
  {| callback :=
       {| target :=
            Decorator
              (click_option {| opt_decl := "--shout";
                               opt_type := Coerce (Builtin Cbool);
                               opt_default := PBool false;
                               opt_show_default := true;
                               opt_is_flag := true |});
          applied :=
            [click_argument {| arg_decl := "name";
                               arg_type := Coerce (Builtin Cstr);
                               arg_nargs := None |}] |};
     attrs := [("no_args_is_help", PBool true)] |}.

(** [def copy(paths: list[str])], with the alias of the builtin class. *)
Definition list_of_str : pyobj :=
  PTypesAlias (PClass (Builtin Clist)) [str_cls].

Definition copy_builtin : pyfunction :=
  {| fn_name := "copy";
     parameters := [ positional "paths" list_of_str ];
     fn_doc := PNone |}.

(** The decorators of [gather] and of [f_abc], and the command of the
    latter. *)
Definition gather_decorators : list decorator :=
  [ click_argument {| arg_decl := "values";
                      arg_type := Coerce (Builtin Cint);
                      arg_nargs := Some (-1)%Z |} ].

Definition abc_decorators : list decorator :=
  [ click_argument {| arg_decl := "a"; arg_type := Coerce (Builtin C_empty);
                      arg_nargs := None |};
    click_argument {| arg_decl := "b"; arg_type := Coerce (Builtin C_empty);
                      arg_nargs := None |};
    click_argument {| arg_decl := "c"; arg_type := Coerce (Builtin C_empty);
                      arg_nargs := None |} ].

Definition abc_command : Command :=
  {| callback := {| target := Function f_abc;
                    applied := rev abc_decorators |};
     attrs := [("no_args_is_help", PBool true)] |}.

(** The decorators of [report], and its command. *)
Definition report_decorators : list decorator :=
  [ click_option {| opt_decl := "-n"; opt_type := Coerce (Builtin Cint);
                    opt_default := PInt 1; opt_show_default := true;
                    opt_is_flag := false |};
    click_pass_context ].

Definition report_command : Command :=
  {| callback := {| target := Function report;
                    applied := rev report_decorators |};
     attrs := [("no_args_is_help", PBool true)] |}.

(** [def spread( *n: (1, 10))]: a tuple annotates the var-positional
    parameter. *)
Definition spread : pyfunction :=
  {| fn_name := "spread";
     parameters :=
       [ {| name := "n"; kind := VAR_POSITIONAL;
            default := inspect_empty;
            annotation := PTuple [PInt 1; PInt 10] |} ];
     fn_doc := PNone |}.

(** * Properties *)

(** ** Classes and instances *)

Lemma pyclass_eqb_builtin (b b' : builtin) :
  pyclass_eqb (Builtin b) (Builtin b') = builtin_beq b b'.
Proof. reflexivity. Qed.

Lemma builtin_sub_refl (b : builtin) : builtin_sub b b = true.
Proof. destruct b; reflexivity. Qed.

(** The classes are exactly the [PClass] values. *)
Lemma isinstance_type_class (x : pyobj) :
  isinstance x (Builtin Ctype) = true <-> exists c, x = PClass c.
Proof.
  split.
  - destruct x; cbn; try discriminate. intros _. now exists c.
  - intros [c ->]. reflexivity.
Qed.

Lemma isinstance_alias (x : pyobj) :
  isinstance x (Builtin C_GenericAlias) = true <->
  exists origin args, x = PGenericAlias origin args.
Proof.
  split.
  - destruct x; cbn; try discriminate. intros _. now exists x, args.
  - intros (o & a & ->). reflexivity.
Qed.

(** No object is both an [int] and a [float]. *)
Lemma float_not_int (x : pyobj) :
  isinstance x (Builtin Cfloat) = true -> isinstance x (Builtin Cint) = false.
Proof. destruct x; cbn; congruence. Qed.

(** ** click_type on a tuple value *)

(** C8: a tuple value of two integers maps to [click.IntRange] called on
    those two bounds, a tuple value of two floats to [click.FloatRange]
    called on them, and the integer test comes first: whenever it holds of
    the first two items the result is the integer range, whatever the
    float test would say. *)
Theorem click_type_range (a b default : pyobj) (items : list pyobj) :
  (isinstance a (Builtin Cint) = true ->
   isinstance b (Builtin Cint) = true ->
   click_type (PTuple [a; b]) default = Ok (IntRange [a; b])) /\
  (isinstance a (Builtin Cfloat) = true ->
   isinstance b (Builtin Cfloat) = true ->
   click_type (PTuple [a; b]) default = Ok (FloatRange [a; b])) /\
  (forallb (fun x => isinstance x (Builtin Cint)) (firstn 2 items) = true ->
   click_type (PTuple items) default = Ok (IntRange items)).
Proof.
  split; [|split].
  - intros Ha Hb. cbn [click_type firstn forallb]. now rewrite Ha, Hb.
  - intros Ha Hb. cbn [click_type firstn forallb].
    rewrite (float_not_int a Ha), Ha, Hb. reflexivity.
  - intros H. cbn [click_type]. now rewrite H.
Qed.

(** ** click_type on a UUID class *)

(** A class that derives from [uuid.UUID], and that the two earlier rules
    (date-time, tuple) do not take, maps to the call of [click.UUID] on
    the supplied default; without a default that is [None]. *)
Lemma click_type_uuid (c : pyclass) (default : pyobj) :
  subclass c (Builtin CUUID) = true ->
  subclass c (Builtin Cdatetime) = false ->
  subclass c (Builtin Ctuple) = false ->
  click_type (PClass c) default = Ok (UUID default).
Proof.
  intros Hu Hd Ht. cbn [click_type]. now rewrite Hd, Ht, Hu.
Qed.

(** C9, where the code departs from it: for [uuid.UUID] the code returns
    what the call of the parameter type [click.UUID] on the default
    returns.  Without a default that is [None], no validator at all; with
    a default it is the default converted to a [uuid.UUID] object, or the
    error of the conversion. *)
Theorem click_type_uuid_call (convert : pyobj -> result pyobj) :
  click_type (PClass (Builtin CUUID)) PNone = Ok (UUID PNone) /\
  ParamType_call convert PNone = Ok PNone /\
  (forall default,
     default <> PNone ->
     click_type (PClass (Builtin CUUID)) default = Ok (UUID default) /\
     ParamType_call convert default = convert default).
Proof.
  split; [reflexivity|]. split; [reflexivity|].
  intros default Hd. split; [reflexivity|].
  destruct default; try reflexivity. now elim Hd.
Qed.

(** ** istype *)

(** C10: on an object that is not a class [istype] answers [False] where
    [issubclass] raises [TypeError]; on a class it is [issubclass]. *)
Theorem istype_total (x y : pyobj) :
  (isinstance x (Builtin Ctype) = false ->
   istype x y = Ok false /\ issubclass x y = Raise TypeError) /\
  (isinstance x (Builtin Ctype) = true -> istype x y = issubclass x y) /\
  (forall d, exists b, istype x (PClass d) = Ok b /\
     (b = true -> exists c, x = PClass c /\ subclass c d = true)).
Proof.
  split; [|split].
  - intros H. unfold istype. rewrite H. split; [reflexivity|].
    destruct x; try reflexivity. discriminate H.
  - intros H. unfold istype. now rewrite H.
  - intros d. unfold istype.
    destruct (isinstance x (Builtin Ctype)) eqn:H.
    + apply isinstance_type_class in H as [c ->]. cbn.
      exists (subclass c d). split; [reflexivity|].
      intros Hs. now exists c.
    + exists false. split; [reflexivity|discriminate].
Qed.

(** ** Lists of results *)

Lemma map_result_Forall2 {A B : Type} (f : A -> result B) (l : list A) :
  forall bs, map_result f l = Ok bs -> Forall2 (fun a b => f a = Ok b) l bs.
Proof.
  induction l as [|a l IH]; cbn; intros bs H.
  - injection H as <-. constructor.
  - destruct (f a) as [b|e] eqn:Hb; cbn in H; [|discriminate].
    destruct (map_result f l) as [bs'|e] eqn:Hbs; cbn in H; [|discriminate].
    injection H as <-. constructor; auto.
Qed.

Lemma map_result_total {A B : Type} (f : A -> result B) (l : list A) :
  (forall a, In a l -> raises (f a) = false) ->
  exists bs, map_result f l = Ok bs.
Proof.
  induction l as [|a l IH]; cbn; intros H.
  - now exists [].
  - destruct (f a) as [b|e] eqn:Hb.
    + destruct IH as [bs ->]; [intros; apply H; auto|].
      now exists (b :: bs).
    + specialize (H a (or_introl eq_refl)). rewrite Hb in H. discriminate.
Qed.

Lemma Forall2_nth {A B : Type} (R : A -> B -> Prop) (l : list A)
  (bs : list B) :
  Forall2 R l bs ->
  forall i a, nth_error l i = Some a ->
  exists b, nth_error bs i = Some b /\ R a b.
Proof.
  induction 1 as [|x y l bs Hxy _ IH]; intros [|i] a Hi; cbn in Hi;
    try discriminate.
  - injection Hi as <-. now exists y.
  - now apply IH.
Qed.

Lemma nth_error_after {A : Type} (pre l : list A) (i : nat) :
  nth_error (pre ++ l) (List.length pre + i) = nth_error l i.
Proof. induction pre; cbn; auto. Qed.

(** ** Dictionaries built from distinct keys *)

Lemma dict_set_fresh {V : Type} (d : dict V) (k : string) (v : V) :
  ~ In k (keys d) -> dict_set d k v = d ++ [(k, v)].
Proof.
  induction d as [|[k' v'] d IH]; cbn; intros H; [reflexivity|].
  destruct (String.eqb_spec k' k) as [->|_].
  - exfalso. apply H. now left.
  - f_equal. apply IH. intros Hin. apply H. now right.
Qed.

Lemma dict_of_items_acc {V : Type} (items : list (string * V)) :
  forall acc,
    NoDup (keys acc ++ keys items) ->
    fold_left (fun d kv => dict_set d (fst kv) (snd kv)) items acc
    = acc ++ items.
Proof.
  induction items as [|[k v] items IH]; intros acc H; cbn.
  - now rewrite app_nil_r.
  - cbn in H. pose proof (NoDup_remove_2 _ _ _ H) as Hk.
    rewrite dict_set_fresh by (intros Hin; apply Hk, in_or_app; now left).
    rewrite IH.
    + now rewrite <- app_assoc.
    + unfold keys in *. rewrite map_app, <- app_assoc. exact H.
Qed.

(** A comprehension over pairs with distinct keys keeps them all, in
    their order. *)
Lemma dict_of_items_distinct {V : Type} (items : list (string * V)) :
  NoDup (keys items) -> dict_of_items items = items.
Proof. intros H. unfold dict_of_items. now rewrite dict_of_items_acc. Qed.

Lemma NoDup_map_filter {A B : Type} (f : A -> B) (P : A -> bool)
  (l : list A) :
  NoDup (map f l) -> NoDup (map f (filter P l)).
Proof.
  induction l as [|a l IH]; cbn; intros H; [constructor|].
  inversion H as [|x xs Hnot Hrest]; subst.
  destruct (P a); cbn; auto.
  constructor; auto.
  intros Hin. apply Hnot.
  apply in_map_iff in Hin as (y & Hy & Hin).
  apply filter_In in Hin as [Hin _].
  apply in_map_iff. now exists y.
Qed.

Lemma dict_get_absent {V : Type} (d : dict V) (k : string) :
  ~ In k (keys d) -> dict_get d k = None.
Proof.
  induction d as [|[k' v] d IH]; cbn; intros H; [reflexivity|].
  destruct (String.eqb_spec k' k) as [->|_].
  - exfalso. apply H. now left.
  - apply IH. intros Hin. apply H. now right.
Qed.

(** Looking a key up in the pairs made from the items that pass [P]. *)
Lemma dict_get_map_filter {A V : Type} (key : A -> string) (g : A -> V)
  (P : A -> bool) (l : list A) (p : A) :
  NoDup (map key l) -> In p l ->
  dict_get (map (fun v => (key v, g v)) (filter P l)) (key p)
  = if P p then Some (g p) else None.
Proof.
  induction l as [|a l IH]; cbn; intros Hnd Hin; [contradiction|].
  inversion Hnd as [|x xs Hnot Hrest]; subst.
  destruct Hin as [->|Hin].
  - destruct (P p) eqn:HP; cbn.
    + now rewrite String.eqb_refl.
    + apply dict_get_absent. unfold keys. rewrite map_map. cbn.
      intros Hin. apply Hnot.
      apply in_map_iff in Hin as (y & Hy & Hin).
      apply filter_In in Hin as [Hin _].
      apply in_map_iff. now exists y.
  - assert (Hne : key a <> key p).
    { intros Heq. apply Hnot. rewrite Heq. now apply in_map. }
    destruct (P a); cbn.
    + destruct (String.eqb_spec (key a) (key p)); [contradiction|].
      now apply IH.
    + now apply IH.
Qed.

(** ** click_type along the first type arguments *)

Lemma click_type_innermost :
  forall (x default : pyobj),
    click_type x default =
    match innermost x with
    | Some y => click_type y default
    | None => Raise IndexError
    end.
Proof.
  fix IH 1. intros x default.
  destruct x as [ | | | | | | | |origin args| | ]; try reflexivity.
  destruct args as [|a rest]; [reflexivity|].
  cbn [click_type innermost]. apply IH.
Qed.

Lemma innermost_not_alias :
  forall (x y : pyobj),
    innermost x = Some y -> isinstance y (Builtin C_GenericAlias) = false.
Proof.
  fix IH 1. intros x y.
  destruct x as [ | | | | | | | |origin args| | ]; cbn [innermost];
    try (intros H; injection H as <-; reflexivity).
  destruct args as [|a rest]; [discriminate|]. apply IH.
Qed.

Lemma click_type_raises_default (x d d' : pyobj) :
  raises (click_type x d) = raises (click_type x d').
Proof.
  rewrite !(click_type_innermost x).
  destruct (innermost x) as [y|] eqn:Hy; [|reflexivity].
  pose proof (innermost_not_alias _ _ Hy) as Hna.
  destruct y; try reflexivity; [|discriminate Hna].
  cbn [click_type getattr_args].
  repeat match goal with
         | |- context [if ?b then _ else _] => destruct b
         end; reflexivity.
Qed.

Lemma raises_bind_ok {A B : Type} (c : result A) (f : A -> B) :
  raises (t <- c ;; Ok (f t)) = raises c.
Proof. destruct c; reflexivity. Qed.

Lemma raises_map_result {A B : Type} (f : A -> result B) (l : list A) :
  raises (map_result f l) = existsb (fun a => raises (f a)) l.
Proof.
  induction l as [|a l IH]; cbn; [reflexivity|].
  destruct (f a) as [b|e]; cbn; [|reflexivity].
  rewrite <- IH. destruct (map_result f l); reflexivity.
Qed.

Lemma existsb_Forall2 {A B : Type} (R : A -> B -> Prop) (f : A -> bool)
  (g : B -> bool) (l : list A) (m : list B) :
  Forall2 R l m ->
  (forall a b, In a l -> R a b -> g b = f a) ->
  existsb g m = existsb f l.
Proof.
  induction 1 as [|a b l m Hab _ IH]; intros H; cbn; [reflexivity|].
  rewrite (H a b (or_introl eq_refl) Hab). f_equal.
  apply IH. intros a' b' Hin. apply H. now right.
Qed.

Lemma existsb_negb {A : Type} (f : A -> bool) (l : list A) :
  existsb (fun a => negb (f a)) l = negb (forallb f l).
Proof.
  induction l as [|a l IH]; cbn; [reflexivity|].
  rewrite IH. now destruct (f a).
Qed.

Lemma Forall2_In_right {A B : Type} (R : A -> B -> Prop) (l : list A)
  (m : list B) :
  Forall2 R l m ->
  forall b, In b m -> exists a, In a l /\ R a b.
Proof.
  induction 1 as [|x y l m Hxy _ IH]; intros b [].
  - subst. exists x. split; [now left|assumption].
  - destruct (IH b H) as (a & Ha & Hab). exists a. split; [now right|assumption].
Qed.

Section SynthesisProperties.

Variable spinalcase : string -> string.

(** ** The loop of decorators_from_dicts *)

(** The loop appends, to the decorators it starts from, one decorator per
    item, in the order of the items. *)
Lemma decorators_from_dicts_map (annotations defaults : dict pyobj) :
  forall decorators,
    decorators_from_dicts spinalcase annotations defaults decorators =
    (bs <- map_result
             (fun kv => decorator_for spinalcase defaults (fst kv) (snd kv))
             annotations ;;
     Ok (decorators ++ bs)).
Proof.
  induction annotations as [|[k v] rest IH]; intros decorators; cbn.
  - now rewrite app_nil_r.
  - destruct (decorator_for spinalcase defaults k v) as [d|e]; cbn; auto.
    rewrite IH.
    destruct (map_result _ rest) as [bs|e]; cbn; auto.
    now rewrite <- app_assoc.
Qed.

Lemma decorators_from_dicts_nth (annotations defaults : dict pyobj)
  (decorators out : list decorator) (i : nat) (k : string) (v : pyobj) :
  decorators_from_dicts spinalcase annotations defaults decorators = Ok out ->
  nth_error annotations i = Some (k, v) ->
  exists b, decorator_for spinalcase defaults k v = Ok b /\
            nth_error out (List.length decorators + i) = Some b.
Proof.
  rewrite decorators_from_dicts_map. intros H Hi.
  destruct (map_result _ annotations) as [bs|e] eqn:Hbs; cbn in H;
    [|discriminate].
  injection H as <-.
  apply map_result_Forall2 in Hbs.
  destruct (Forall2_nth _ _ _ Hbs _ _ Hi) as (b & Hb & Hk).
  exists b. split; [exact Hk|]. now rewrite nth_error_after.
Qed.

(** The loop returns as soon as the type of every item can be mapped. *)
Lemma decorators_from_dicts_total (annotations defaults : dict pyobj)
  (decorators : list decorator) :
  (forall k v, In (k, v) annotations ->
     raises (decorator_for spinalcase defaults k v) = false) ->
  exists bs,
    decorators_from_dicts spinalcase annotations defaults decorators
    = Ok (decorators ++ bs) /\
    List.length bs = List.length annotations.
Proof.
  intros H. rewrite decorators_from_dicts_map.
  destruct (map_result_total
              (fun kv => decorator_for spinalcase defaults (fst kv) (snd kv))
              annotations) as [bs Hbs].
  { intros [k v] Hin. now apply H. }
  rewrite Hbs. exists bs. split; [reflexivity|].
  apply map_result_Forall2 in Hbs. symmetry.
  eapply Forall2_length; eauto.
Qed.

(** The option built for an item with a default. *)
Lemma decorator_for_default (defaults : dict pyobj) (k : string)
  (v d : pyobj) (b : decorator) :
  dict_get defaults k = Some d ->
  decorator_for spinalcase defaults k v = Ok b ->
  exists t, click_type v d = Ok t /\
    b = click_option {| opt_decl := flag_name spinalcase k;
                        opt_type := t;
                        opt_default := d;
                        opt_show_default := true;
                        opt_is_flag := is_builtin v Cbool |}.
Proof.
  unfold decorator_for. intros ->.
  destruct (click_type v d) as [t|e]; cbn; [|discriminate].
  intros H. injection H as <-. now exists t.
Qed.

(** C1: an item with a default yields a [click.option], not an argument;
    its default is the one supplied, [show_default] is on, and its
    declaration is the spinal case of the name after one hyphen when the
    name has a single character and after two otherwise. *)
Theorem option_for_default (annotations defaults : dict pyobj)
  (decorators out : list decorator) (i : nat) (k : string) (v d : pyobj) :
  decorators_from_dicts spinalcase annotations defaults decorators = Ok out ->
  nth_error annotations i = Some (k, v) ->
  dict_get defaults k = Some d ->
  exists o,
    nth_error out (List.length decorators + i) = Some (click_option o) /\
    opt_default o = d /\
    opt_show_default o = true /\
    opt_decl o =
      ((if Nat.eqb (String.length k) 1 then "-" else "--") ++ spinalcase k)%string.
Proof.
  intros Hout Hi Hd.
  destruct (decorators_from_dicts_nth _ _ _ _ _ _ _ Hout Hi) as (b & Hb & Hn).
  destruct (decorator_for_default _ _ _ _ _ Hd Hb) as (t & _ & ->).
  eexists. split; [exact Hn|]. cbn. auto.
Qed.

(** C7: the option of an item with a default is a flag exactly when the
    declared type is the class [bool] itself. *)
Theorem flag_iff_bool (annotations defaults : dict pyobj)
  (decorators out : list decorator) (i : nat) (k : string) (v d : pyobj) :
  decorators_from_dicts spinalcase annotations defaults decorators = Ok out ->
  nth_error annotations i = Some (k, v) ->
  dict_get defaults k = Some d ->
  exists o,
    nth_error out (List.length decorators + i) = Some (click_option o) /\
    (opt_is_flag o = true <-> v = PClass (Builtin Cbool)).
Proof.
  intros Hout Hi Hd.
  destruct (decorators_from_dicts_nth _ _ _ _ _ _ _ Hout Hi) as (b & Hb & Hn).
  destruct (decorator_for_default _ _ _ _ _ Hd Hb) as (t & _ & ->).
  eexists. split; [exact Hn|]. cbn. split.
  - destruct v; cbn; try discriminate.
    destruct c as [[]|]; cbn; try discriminate. reflexivity.
  - intros ->. reflexivity.
Qed.

(** ** Items without a default *)

Ltac break_match H :=
  repeat match type of H with
  | context [bind ?c _] =>
      let E := fresh "E" in destruct c eqn:E; cbn [bind] in H;
      try discriminate H
  | context [match ?x with _ => _ end] =>
      let E := fresh "E" in destruct x eqn:E; try discriminate H
  end.

Lemma decorator_for_alias (defaults : dict pyobj) (k : string)
  (origin a : pyobj) (rest : list pyobj) (b : decorator) :
  dict_get defaults k = None ->
  decorator_for spinalcase defaults k (PGenericAlias origin (a :: rest))
  = Ok b ->
  exists t, click_type a PNone = Ok t /\
    b = click_argument {| arg_decl := spinalcase k;
                          arg_type := t;
                          arg_nargs := Some (-1)%Z |}.
Proof.
  unfold decorator_for. intros ->. cbn.
  destruct (click_type a PNone) as [t|e]; cbn; [|discriminate].
  intros H. injection H as <-. now exists t.
Qed.

Lemma decorator_for_list (defaults : dict pyobj) (k : string) (c : pyclass)
  (b : decorator) :
  dict_get defaults k = None ->
  subclass c (Builtin Clist) = true ->
  decorator_for spinalcase defaults k (PClass c) = Ok b ->
  b = click_argument {| arg_decl := spinalcase k;
                        arg_type := Coerce (Builtin Cstr);
                        arg_nargs := Some (-1)%Z |}.
Proof.
  unfold decorator_for. intros -> Hc. cbn. rewrite Hc. cbn.
  intros H. now injection H as <-.
Qed.

(** A generic alias whose [__args__] is empty has no first argument. *)
Lemma decorator_for_alias_no_args (defaults : dict pyobj) (k : string)
  (origin : pyobj) :
  dict_get defaults k = None ->
  decorator_for spinalcase defaults k (PGenericAlias origin [])
  = Raise IndexError.
Proof. unfold decorator_for. now intros ->. Qed.

(** Every decorator the loop makes is an option or an argument. *)
Lemma decorator_for_is_param (defaults : dict pyobj) (k : string)
  (v : pyobj) (b : decorator) :
  decorator_for spinalcase defaults k v = Ok b -> is_param b = true.
Proof.
  unfold decorator_for. intros H.
  break_match H; injection H as <-; reflexivity.
Qed.

(** ** When the loop raises *)

Lemma decorator_for_raises (defaults : dict pyobj) (k : string) (v : pyobj) :
  raises (decorator_for spinalcase defaults k v)
  = (dict_mem k defaults || negb (list_class v))
    && raises (click_type v PNone).
Proof.
  unfold decorator_for, dict_mem.
  destruct (dict_get defaults k) as [d|].
  - rewrite raises_bind_ok. cbn. apply click_type_raises_default.
  - cbn [orb].
    destruct v as [ | b| n| bits| s| items| entries| c| origin args| tag
                 | origin585 args585];
      unfold istype; cbn -[click_type]; try apply raises_bind_ok.
    + destruct (subclass c (Builtin Clist)); cbn -[click_type];
        [reflexivity|apply raises_bind_ok].
    + destruct args as [|a rest]; [reflexivity|]. apply raises_bind_ok.
Qed.


(** ** Reading a signature *)

Lemma map_result_map {A B C : Type} (f : B -> result C) (g : A -> B)
  (l : list A) :
  map_result f (map g l) = map_result (fun a => f (g a)) l.
Proof.
  induction l as [|a l IH]; cbn; [reflexivity|]. now rewrite IH.
Qed.

Lemma Forall2_compose {A B C : Type} (R : A -> B -> Prop)
  (S : B -> C -> Prop) (l : list A) (m : list B) :
  Forall2 R l m ->
  forall n, Forall2 S m n ->
  Forall2 (fun a c => exists b, R a b /\ S b c) l n.
Proof.
  induction 1 as [|a b l m Hab _ IH]; intros n Hn; inversion Hn; subst;
    constructor; eauto.
Qed.

Lemma raises_false {A : Type} (c : result A) :
  raises c = false -> exists a, c = Ok a.
Proof. destruct c as [a|e]; [eauto|discriminate]. Qed.

Lemma decorator_for_mappable (defaults : dict pyobj) (k : string)
  (v : pyobj) :
  raises (decorator_for spinalcase defaults k v)
  = negb (mappable (dict_mem k defaults) v).
Proof.
  rewrite decorator_for_raises. unfold mappable.
  destruct (dict_mem k defaults), (list_class v),
    (raises (click_type v PNone)); reflexivity.
Qed.

(** The loop returns exactly when every item is mappable. *)
Lemma decorators_from_dicts_returns (annotations defaults : dict pyobj)
  (decorators : list decorator) :
  all_mappable annotations defaults = true ->
  exists out,
    decorators_from_dicts spinalcase annotations defaults decorators = Ok out.
Proof.
  intros H. apply raises_false.
  rewrite decorators_from_dicts_map, raises_bind_ok, raises_map_result.
  apply not_true_is_false. intros Hex.
  apply existsb_exists in Hex as ([k v] & Hin & Hr). cbn [fst snd] in Hr.
  rewrite decorator_for_mappable in Hr.
  unfold all_mappable in H. rewrite forallb_forall in H.
  specialize (H _ Hin). cbn [fst snd] in H. rewrite H in Hr. discriminate.
Qed.

(** The pairs of the first comprehension, when no declared type raises. *)
Lemma signature_items (signature : list parameter)
  (items : list (string * pyobj)) :
  map_result (fun v => t <- declared_type v ;; Ok (name v, t))
             (visible signature) = Ok items ->
  Forall2 (fun v kv => fst kv = name v /\ declared_type v = Ok (snd kv))
          (visible signature) items.
Proof.
  intros H. apply map_result_Forall2 in H.
  eapply Forall2_impl; [|exact H]. cbn. intros v kv Hv.
  destruct (declared_type v) as [t|e]; cbn in Hv; [|discriminate].
  injection Hv as <-. auto.
Qed.

Lemma signature_items_keys (signature : list parameter)
  (items : list (string * pyobj)) :
  Forall2 (fun v kv => fst kv = name v /\ declared_type v = Ok (snd kv))
          signature items ->
  keys items = map name signature.
Proof.
  induction 1 as [|v kv l m [Hk _] _ IH]; cbn; [reflexivity|].
  now rewrite Hk, <- IH.
Qed.

Lemma signature_annotations_distinct (signature : list parameter) :
  NoDup (map name signature) ->
  signature_annotations signature
  = map_result (fun v => t <- declared_type v ;; Ok (name v, t))
               (visible signature).
Proof.
  intros H. unfold signature_annotations. fold (visible signature).
  destruct (map_result _ (visible signature)) as [items|e] eqn:Hi;
    cbn; [|reflexivity].
  rewrite dict_of_items_distinct; [reflexivity|].
  rewrite (signature_items_keys _ _ (signature_items _ _ Hi)).
  now apply NoDup_map_filter.
Qed.

Lemma signature_defaults_distinct (signature : list parameter) :
  NoDup (map name signature) ->
  signature_defaults signature
  = map (fun v => (name v, default v))
        (filter (fun v => negb (is_builtin (default v) C_empty)) signature).
Proof.
  intros H. unfold signature_defaults. apply dict_of_items_distinct.
  unfold keys. rewrite map_map. cbn. now apply NoDup_map_filter.
Qed.

(** The default that [signature_to_decorators] records for a parameter. *)
Lemma signature_defaults_get (signature : list parameter) (p : parameter) :
  NoDup (map name signature) -> In p signature ->
  dict_get (signature_defaults signature) (name p)
  = if is_builtin (default p) C_empty then None else Some (default p).
Proof.
  intros Hnd Hin. rewrite signature_defaults_distinct by assumption.
  rewrite (dict_get_map_filter name default) by assumption.
  now destruct (is_builtin (default p) C_empty).
Qed.

(** The result of [signature_to_decorators], from the one of the loop. *)
Lemma signature_to_decorators_unfold (f : pyfunction)
  (decorators : list decorator) :
  signature_to_decorators spinalcase f decorators =
  (annotations <- signature_annotations (parameters f) ;;
   ds <- decorators_from_dicts spinalcase annotations
           (signature_defaults (parameters f)) [] ;;
   Ok (decorators ++ ds ++
       (if first_is_ctx (parameters f) then [click_pass_context] else []))).
Proof.
  unfold signature_to_decorators.
  destruct (signature_annotations (parameters f)) as [a|e]; cbn [bind];
    [|reflexivity].
  destruct (decorators_from_dicts spinalcase a _ []) as [ds|e]; cbn [bind];
    [|reflexivity].
  f_equal. unfold first_is_ctx. destruct (parameters f) as [|v rest].
  - now rewrite app_nil_r.
  - destruct (String.eqb (name v) "ctx").
    + now rewrite <- app_assoc.
    + now rewrite app_nil_r.
Qed.

(** The decorators of a signature: after those it starts from come the
    decorators of the parameters not named [ctx], one each and in the
    order of the signature, and then [click.pass_context] when the first
    parameter is named [ctx]. *)
Lemma signature_to_decorators_bindings (f : pyfunction)
  (decorators out : list decorator) :
  NoDup (map name (parameters f)) ->
  signature_to_decorators spinalcase f decorators = Ok out ->
  exists bs,
    Forall2 (fun p b =>
               exists t, declared_type p = Ok t /\
                 decorator_for spinalcase (signature_defaults (parameters f))
                               (name p) t = Ok b)
            (visible (parameters f)) bs /\
    out = decorators ++ bs ++
          (if first_is_ctx (parameters f) then [click_pass_context] else []).
Proof.
  intros Hnd. rewrite signature_to_decorators_unfold,
    signature_annotations_distinct by assumption.
  destruct (map_result _ (visible (parameters f))) as [items|e] eqn:Hi;
    cbn [bind]; [|discriminate].
  rewrite decorators_from_dicts_map.
  destruct (map_result _ items) as [bs|e] eqn:Hbs; cbn; [|discriminate].
  intros H. injection H as <-. exists bs. split; [|reflexivity].
  apply signature_items in Hi. apply map_result_Forall2 in Hbs.
  eapply Forall2_impl; [|exact (Forall2_compose _ _ _ _ Hi _ Hbs)].
  cbn. intros p b ([k t] & [Hk Ht] & Hb). cbn in Hk, Ht, Hb.
  exists t. split; [exact Ht|]. now rewrite <- Hk.
Qed.

(** Reading a signature raises exactly when it is not readable. *)
Lemma signature_to_decorators_raises_b (f : pyfunction)
  (decorators : list decorator) :
  NoDup (map name (parameters f)) ->
  raises (signature_to_decorators spinalcase f decorators)
  = negb (readable (parameters f)).
Proof.
  intros Hnd. rewrite signature_to_decorators_unfold,
    signature_annotations_distinct by assumption.
  unfold readable. fold (visible (parameters f)).
  rewrite <- existsb_negb.
  assert (Hdefaults : forall p, In p (visible (parameters f)) ->
            dict_mem (name p) (signature_defaults (parameters f))
            = negb (is_builtin (default p) C_empty)).
  { intros p Hin. apply filter_In in Hin as [Hin _]. unfold dict_mem.
    rewrite (signature_defaults_get _ _ Hnd Hin).
    now destruct (is_builtin (default p) C_empty). }
  destruct (map_result _ (visible (parameters f))) as [items|e] eqn:Hi;
    cbn [bind].
  - rewrite raises_bind_ok, decorators_from_dicts_map, raises_bind_ok,
      raises_map_result.
    apply signature_items in Hi.
    apply (existsb_Forall2 _ _ _ _ _ Hi).
    intros q [k t] Hq [Hk Ht]. cbn in Hk, Ht |- *. subst k.
    now rewrite decorator_for_mappable, Ht, (Hdefaults q Hq).
  - cbn. symmetry.
    assert (Hx : raises (map_result
       (fun v => t <- declared_type v ;; Ok (name v, t))
       (visible (parameters f))) = true) by now rewrite Hi.
    rewrite raises_map_result in Hx.
    apply existsb_exists in Hx as (q & Hq & Hx).
    apply existsb_exists. exists q. split; [exact Hq|].
    destruct (declared_type q); [discriminate Hx|reflexivity].
Qed.

(** A signature is read to the end when it is readable. *)
Lemma signature_to_decorators_returns (f : pyfunction)
  (decorators : list decorator) :
  NoDup (map name (parameters f)) ->
  readable (parameters f) = true ->
  exists out, signature_to_decorators spinalcase f decorators = Ok out.
Proof.
  intros Hnd Hr. apply raises_false.
  now rewrite signature_to_decorators_raises_b, Hr.
Qed.

Lemma Forall2_is_param {A : Type} (R : A -> decorator -> Prop)
  (ps : list A) (bs : list decorator) :
  (forall p b, R p b -> is_param b = true) ->
  Forall2 R ps bs ->
  filter is_param bs = bs.
Proof.
  intros HR. induction 1 as [|p b ps bs Hb _ IH]; cbn; [reflexivity|].
  rewrite (HR _ _ Hb). now rewrite IH.
Qed.

(** ** Applying the decorators *)

Lemma call_decorators (l : list decorator) :
  forall w,
    fold_left (fun command decorator => call_decorator decorator command) l w
    = {| target := target w; applied := applied w ++ l |}.
Proof.
  induction l as [|d l IH]; intros [t a]; cbn.
  - now rewrite app_nil_r.
  - rewrite IH. cbn. now rewrite <- app_assoc.
Qed.

Lemma keywords_fresh (k : string) (x : pyobj) (settings : dict pyobj) :
  dict_mem k settings = false ->
  keywords [(k, x)] settings = Ok ((k, x) :: settings).
Proof.
  unfold keywords. intros H.
  assert (E : existsb (fun kv => dict_mem (fst kv) [(k, x)]) settings = false).
  { induction settings as [|[k' v] rest IH]; [reflexivity|].
    unfold dict_mem in H. cbn in H. cbn -[String.eqb].
    unfold dict_mem at 1. cbn -[String.eqb].
    rewrite String.eqb_sym.
    destruct (String.eqb k' k); [discriminate|].
    cbn. apply IH. exact H. }
  now rewrite E.
Qed.

(** A callable and its decorators: the decorators are called from the
    last to the first, and the command is told to show its help exactly
    when there are decorators. *)
Lemma command_from_decorators_some (c : callee) (ds : list decorator)
  (settings : dict pyobj) (cmd : Command) :
  command_from_decorators (Some c) ds settings = Ok cmd ->
  target (callback cmd) = c /\
  applied (callback cmd) = rev ds /\
  no_args_is_help cmd = Some (PBool (nonempty ds)).
Proof.
  unfold command_from_decorators.
  destruct (dict_mem "command" settings); [discriminate|].
  cbn [bind fst snd]. rewrite call_decorators. cbn.
  unfold keywords.
  destruct (existsb _ settings); cbn; [discriminate|].
  intros H. injection H as <-. cbn. auto.
Qed.

(** With settings that hold neither [command] nor [no_args_is_help], a
    callable and its decorators give a command, and this one. *)
Lemma command_from_decorators_callable (c : callee) (ds : list decorator)
  (settings : dict pyobj) :
  dict_mem "command" settings = false ->
  dict_mem "no_args_is_help" settings = false ->
  command_from_decorators (Some c) ds settings
  = Ok {| callback := {| target := c; applied := rev ds |};
          attrs := ("no_args_is_help", PBool (nonempty ds)) :: settings |}.
Proof.
  intros Hc Hs. unfold command_from_decorators. rewrite Hc.
  cbn [bind fst snd]. rewrite (keywords_fresh _ _ _ Hs), call_decorators.
  reflexivity.
Qed.

(** C5: a callable with its decorators, and settings that neither repeat
    the parameter [command] nor set [no_args_is_help] themselves (either
    is a [TypeError] of the call), give a command; it shows its help when
    run without arguments if and only if there is at least one decorator. *)
Theorem help_iff_decorators (c : callee) (ds : list decorator)
  (settings : dict pyobj) :
  dict_mem "command" settings = false ->
  dict_mem "no_args_is_help" settings = false ->
  exists cmd,
    command_from_decorators (Some c) ds settings = Ok cmd /\
    (no_args_is_help cmd = Some (PBool true) <-> ds <> []) /\
    (no_args_is_help cmd = Some (PBool false) <-> ds = []).
Proof.
  intros Hc Hs. unfold command_from_decorators. rewrite Hc.
  cbn [bind fst snd].
  rewrite (keywords_fresh _ _ _ Hs). cbn [bind].
  eexists. split; [reflexivity|].
  unfold no_args_is_help. cbn.
  destruct ds; cbn; split; split; intros H;
    try reflexivity; try discriminate; try congruence.
Qed.

(** ** The claims on a signature *)

Lemma decorator_for_declaration (defaults : dict pyobj) (k : string)
  (v : pyobj) (b : decorator) :
  decorator_for spinalcase defaults k v = Ok b ->
  declaration b = Some (spinalcase k) \/
  declaration b = Some (flag_name spinalcase k).
Proof.
  unfold decorator_for. intros H.
  break_match H; injection H as <-; cbn; auto.
Qed.

Lemma Forall2_with_left {A B : Type} (R : A -> B -> Prop) (P : A -> Prop)
  (l : list A) (bs : list B) :
  Forall2 R l bs -> Forall P l -> Forall2 (fun a b => P a /\ R a b) l bs.
Proof.
  induction 1 as [|a b l bs Hab _ IH]; intros HP; [constructor|].
  inversion HP; subst. constructor; auto.
Qed.

Lemma visible_not_ctx (signature : list parameter) :
  Forall (fun p => name p <> "ctx") (visible signature).
Proof.
  apply Forall_forall. intros p Hin.
  apply filter_In in Hin as [_ Hp].
  destruct (String.eqb_spec (name p) "ctx"); [discriminate|assumption].
Qed.

Lemma nth_error_bindings {A : Type} (pre bs post : list A) (i : nat) (b : A) :
  nth_error bs i = Some b ->
  nth_error (pre ++ bs ++ post) (List.length pre + i) = Some b.
Proof.
  intros H. rewrite nth_error_after, nth_error_app1; [exact H|].
  apply nth_error_Some. congruence.
Qed.

(** C2, as the code has it: an item without default whose type is an
    alias of [typing] (an instance of [typing._GenericAlias]) with a first
    argument, or the class [list] (or one derived from it, which has no
    [__args__]), yields a [click.argument] with [nargs=-1]; its type is
    the mapped first argument of the alias, and [str] for the class.  A
    var-positional parameter is given the type [typing.List] of its
    annotation before the loop, and so yields such an argument. *)
Theorem variadic_argument :
  (forall (annotations defaults : dict pyobj) (decorators : list decorator)
          (i : nat) (k : string) (v : pyobj),
     nth_error annotations i = Some (k, v) ->
     dict_get defaults k = None ->
     all_mappable annotations defaults = true ->
     exists out,
       decorators_from_dicts spinalcase annotations defaults decorators
       = Ok out /\
       (forall origin a rest, v = PGenericAlias origin (a :: rest) ->
          exists t, click_type a PNone = Ok t /\
            nth_error out (List.length decorators + i)
            = Some (click_argument {| arg_decl := spinalcase k;
                                      arg_type := t;
                                      arg_nargs := Some (-1)%Z |})) /\
       (forall c, v = PClass c -> subclass c (Builtin Clist) = true ->
          nth_error out (List.length decorators + i)
          = Some (click_argument {| arg_decl := spinalcase k;
                                    arg_type := Coerce (Builtin Cstr);
                                    arg_nargs := Some (-1)%Z |}))) /\
  (forall (f : pyfunction) (decorators : list decorator) (i : nat)
          (p : parameter),
     NoDup (map name (parameters f)) ->
     nth_error (visible (parameters f)) i = Some p ->
     kind p = VAR_POSITIONAL ->
     readable (parameters f) = true ->
     exists out a b,
       type_argument (annotation p) = Some a /\
       (forall c, annotation p = PClass c -> a = annotation p) /\
       declared_type p = Ok (List_alias a) /\
       signature_to_decorators spinalcase f decorators = Ok out /\
       nth_error out (List.length decorators + i) = Some b /\
       decorator_for spinalcase (signature_defaults (parameters f))
                     (name p) (List_alias a) = Ok b /\
       (default p = inspect_empty ->
        exists t, click_type a PNone = Ok t /\
          b = click_argument {| arg_decl := spinalcase (name p);
                                arg_type := t;
                                arg_nargs := Some (-1)%Z |})).
Proof.
  split.
  - intros annotations defaults decorators i k v Hi Hd Hall.
    destruct (decorators_from_dicts_returns _ _ decorators Hall)
      as [out Hout].
    exists out. split; [exact Hout|].
    destruct (decorators_from_dicts_nth _ _ _ _ _ _ _ Hout Hi)
      as (b & Hb & Hn).
    split.
    + intros origin a rest ->.
      destruct (decorator_for_alias _ _ _ _ _ _ Hd Hb) as (t & Ht & ->).
      now exists t.
    + intros c -> Hc.
      now rewrite (decorator_for_list _ _ _ _ Hd Hc Hb) in Hn.
  - intros f decorators i p Hnd Hi Hk Hr.
    destruct (signature_to_decorators_returns f decorators Hnd Hr)
      as [out Hout].
    destruct (signature_to_decorators_bindings _ _ _ Hnd Hout)
      as (bs & Hbs & Eout).
    destruct (Forall2_nth _ _ _ Hbs _ _ Hi) as (b & Hb & t & Ht & Hp).
    unfold declared_type in Ht. rewrite Hk in Ht. cbn in Ht.
    unfold typing_List in Ht.
    destruct (type_argument (annotation p)) as [a|] eqn:Ha; [|discriminate].
    injection Ht as <-.
    exists out, a, b. split; [reflexivity|]. split.
    { intros c Hc. rewrite Hc in Ha. now injection Ha as <-. }
    split.
    { unfold declared_type, typing_List. now rewrite Hk, Ha. }
    split; [exact Hout|]. split.
    { rewrite Eout. now apply nth_error_bindings. }
    split; [exact Hp|].
    intros Hdef.
    assert (Hin : In p (parameters f)).
    { apply nth_error_In in Hi. now apply filter_In in Hi as [Hi _]. }
    pose proof (signature_defaults_get _ _ Hnd Hin) as Hget.
    rewrite Hdef in Hget. cbn in Hget.
    exact (decorator_for_alias _ _ _ _ _ _ Hget Hp).
Qed.

Lemma binding_is_param (defaults : dict pyobj) (p : parameter)
  (b : decorator) :
  (exists t, declared_type p = Ok t /\
     decorator_for spinalcase defaults (name p) t = Ok b) ->
  is_param b = true.
Proof.
  intros (t & _ & Hb). exact (decorator_for_is_param _ _ _ _ Hb).
Qed.

(** C3: a readable signature gives decorators, those of its parameters
    (the ones not named [ctx]) in the order of the signature, each
    declaring the spinal case of its parameter's name.  With settings that
    hold neither [command] nor [no_args_is_help],
    [command_from_decorators] makes a command of them: it calls them from
    the last to the first, and the parameters of the command then stand in
    the order of the signature. *)
Theorem order_preserved (f : pyfunction) (settings : dict pyobj) :
  NoDup (map name (parameters f)) ->
  readable (parameters f) = true ->
  dict_mem "command" settings = false ->
  dict_mem "no_args_is_help" settings = false ->
  exists ds bs cmd,
    signature_to_decorators spinalcase f [] = Ok ds /\
    Forall2 (fun p b =>
               (exists t, declared_type p = Ok t /\
                  decorator_for spinalcase
                    (signature_defaults (parameters f)) (name p) t = Ok b) /\
               (declaration b = Some (spinalcase (name p)) \/
                declaration b = Some (flag_name spinalcase (name p))))
            (visible (parameters f)) bs /\
    filter is_param ds = bs /\
    command_from_decorators (Some (Function f)) ds settings = Ok cmd /\
    applied (callback cmd) = rev ds /\
    params cmd = bs.
Proof.
  intros Hnd Hr Hc Hs.
  destruct (signature_to_decorators_returns f [] Hnd Hr) as [ds Hds].
  destruct (signature_to_decorators_bindings _ _ _ Hnd Hds)
    as (bs & Hbs & Eds).
  cbn [app] in Eds.
  assert (Hf : filter is_param ds = bs).
  { rewrite Eds, filter_app.
    rewrite (Forall2_is_param _ _ _ (binding_is_param _) Hbs).
    destruct (first_is_ctx (parameters f)); cbn; now rewrite app_nil_r. }
  exists ds, bs. eexists. split; [exact Hds|]. split; [|split; [exact Hf|]].
  - eapply Forall2_impl; [|exact Hbs].
    cbn. intros p b Hb. split; [exact Hb|].
    destruct Hb as (t & _ & Hb).
    exact (decorator_for_declaration _ _ _ _ Hb).
  - split; [exact (command_from_decorators_callable _ _ _ Hc Hs)|].
    cbn. split; [reflexivity|].
    unfold params. cbn.
    rewrite <- (rev_involutive (filter is_param (rev _))).
    rewrite <- filter_rev.
    now rewrite !rev_involutive.
Qed.

(** C4, as the code has it: no decorator comes from a parameter named
    [ctx]; [click.pass_context] is emitted exactly when the first parameter
    of the signature is named [ctx], it then stands last in the sequence
    and is the first decorator that [command_from_decorators] calls. *)
Theorem ctx_first_parameter (f : pyfunction)
  (decorators out : list decorator) :
  NoDup (map name (parameters f)) ->
  signature_to_decorators spinalcase f decorators = Ok out ->
  exists bs,
    Forall2 (fun p b =>
               name p <> "ctx" /\
               exists t, declared_type p = Ok t /\
                 decorator_for spinalcase (signature_defaults (parameters f))
                               (name p) t = Ok b)
            (visible (parameters f)) bs /\
    Forall (fun b => is_param b = true) bs /\
    out = decorators ++ bs ++
          (if first_is_ctx (parameters f) then [click_pass_context] else []) /\
    (first_is_ctx (parameters f) = true ->
     forall settings cmd,
       command_from_decorators (Some (Function f)) out settings = Ok cmd ->
       hd_error (applied (callback cmd)) = Some click_pass_context).
Proof.
  intros Hnd Hout.
  destruct (signature_to_decorators_bindings _ _ _ Hnd Hout)
    as (bs & Hbs & ->).
  exists bs. split; [|split; [|split]].
  - apply Forall2_with_left; [exact Hbs|apply visible_not_ctx].
  - clear -Hbs. induction Hbs as [|p b ps bs Hb _ IH]; constructor; auto.
    exact (binding_is_param _ _ _ Hb).
  - reflexivity.
  - intros Hctx settings cmd Hcmd. rewrite Hctx in Hcmd.
    destruct (command_from_decorators_some _ _ _ _ Hcmd) as (_ & -> & _).
    now rewrite !rev_app_distr.
Qed.

(** Without a callable the last decorator is taken for it, and the help
    setting follows the decorators that remain. *)
Lemma command_from_decorators_none (ds : list decorator) (d : decorator)
  (settings : dict pyobj) (cmd : Command) :
  command_from_decorators None (ds ++ [d]) settings = Ok cmd ->
  target (callback cmd) = Decorator d /\
  applied (callback cmd) = rev ds /\
  no_args_is_help cmd = Some (PBool (nonempty ds)).
Proof.
  unfold command_from_decorators, unpack_last.
  destruct (dict_mem "command" settings); [discriminate|].
  rewrite rev_app_distr. cbn [rev app bind fst snd].
  rewrite rev_involutive, call_decorators. cbn.
  unfold keywords.
  destruct (existsb _ settings); cbn; [discriminate|].
  intros H. injection H as <-. cbn. auto.
Qed.

(** Without a callable and without decorators nothing is returned: the
    call is a [TypeError] when the settings repeat [command], and the
    unpacking a [ValueError] otherwise. *)
Lemma command_from_decorators_nothing (settings : dict pyobj) :
  command_from_decorators None [] settings
  = Raise (if dict_mem "command" settings then TypeError else ValueError).
Proof.
  unfold command_from_decorators.
  now destruct (dict_mem "command" settings).
Qed.

End SynthesisProperties.

(** ** autoclick *)

Lemma autoclick_loop_commands (spinalcase : string -> string)
  (cs : list Command) (settings : dict pyobj) :
  forall app command,
    autoclick_loop spinalcase (map ICommand cs) settings app command
    = Ok ({| commands := commands app ++ cs |},
          match rev cs with
          | c :: _ => Some (RCommand c)
          | [] => command
          end).
Proof.
  induction cs as [|c cs IH]; intros [app] command; cbn.
  - now rewrite app_nil_r.
  - rewrite IH. cbn. rewrite <- app_assoc. cbn.
    destruct (rev cs) as [|x r]; reflexivity.
Qed.

(** Commands that are passed through are all added to the group, in their
    order; a single one is returned as it is. *)
Lemma autoclick_pass_through (spinalcase : string -> string)
  (cs : list Command) (settings : dict pyobj) :
  autoclick spinalcase (map ICommand cs) None settings
  = Ok match cs with
       | [c] => RCommand c
       | _ => RGroup {| commands := cs |}
       end.
Proof.
  unfold autoclick. rewrite autoclick_loop_commands. cbn [bind fst snd].
  rewrite length_map.
  destruct cs as [|c [|c' cs]]; reflexivity.
Qed.

(** C6, where the code departs from it: of the two items [mapping] and
    [copy], both are made into commands, the group that [autoclick] returns
    holds the command of [copy] alone. *)
Theorem autoclick_drops_mapping :
  exists from_mapping from_copy,
    (ds <- decorators_from_dict stringcase_spinalcase mapping ;;
     command_from_decorators None ds []) = Ok from_mapping /\
    (ds <- signature_to_decorators stringcase_spinalcase copy [] ;;
     command_from_decorators (Some (Function copy)) ds [("help", PNone)])
    = Ok from_copy /\
    autoclick stringcase_spinalcase [IDict mapping; IFunction copy] None []
    = Ok (RGroup {| commands := [from_copy] |}) /\
    ~ In from_mapping [from_copy].
Proof.
  eexists. eexists. split; [reflexivity|]. split; [reflexivity|].
  split; [reflexivity|].
  intros [H|[]]. discriminate H.
Qed.

(** ** The statements on sample inputs *)

Example spinalcase_shout : stringcase_spinalcase "shout" = "shout".
Proof. reflexivity. Qed.

Example spinalcase_dry_run : stringcase_spinalcase "dry_run" = "dry-run".
Proof. reflexivity. Qed.

Example spinalcase_camel : stringcase_spinalcase "fooBar" = "foo-bar".
Proof. reflexivity. Qed.

Example greet_signature :
  signature_to_decorators stringcase_spinalcase greet [] = Ok greet_decorators.
Proof. reflexivity. Qed.

(** The annotation [tuple] with a tuple default: the tuple rule asks the
    class for [__args__]. *)
Example click_type_tuple_class :
  click_type (PClass (Builtin Ctuple)) (PTuple [PInt 1; PInt 10])
  = Raise AttributeError.
Proof. reflexivity. Qed.

(** The integer test comes first: the empty tuple passes both tests. *)
Example click_type_empty_tuple :
  click_type (PTuple []) PNone = Ok (IntRange []).
Proof. reflexivity. Qed.

(** A mapping alone: its last decorator is taken for the callable. *)
Example autoclick_mapping_alone :
  autoclick stringcase_spinalcase [IDict mapping] None []
  = Ok (RCommand
          {| callback :=
               {| target := Decorator
                              (click_argument {| arg_decl := "b";
                                                 arg_type := Coerce (Builtin Cint);
                                                 arg_nargs := None |});
                  applied := [click_argument {| arg_decl := "a";
                                                arg_type := Coerce (Builtin Cstr);
                                                arg_nargs := None |}] |};
             attrs := [("no_args_is_help", PBool true)] |}).
Proof. reflexivity. Qed.

Lemma option_for_default_witness :
  decorators_from_dicts stringcase_spinalcase
    [("name", str_cls); ("shout", bool_cls)] [("shout", PBool false)] []
  = Ok greet_decorators /\
  exists o,
    nth_error greet_decorators 1 = Some (click_option o) /\
    opt_default o = PBool false /\
    opt_show_default o = true /\
    opt_decl o = "--shout".
Proof.
  split; [reflexivity|].
  exact (option_for_default stringcase_spinalcase
           [("name", str_cls); ("shout", bool_cls)] [("shout", PBool false)]
           [] greet_decorators 1 "shout" bool_cls (PBool false)
           eq_refl eq_refl eq_refl).
Defined.

Lemma flag_iff_bool_witness :
  decorators_from_dicts stringcase_spinalcase
    [("n", int_cls); ("shout", bool_cls)]
    [("n", PInt 1); ("shout", PBool false)] []
  = Ok [click_option {| opt_decl := "-n"; opt_type := Coerce (Builtin Cint);
                        opt_default := PInt 1; opt_show_default := true;
                        opt_is_flag := false |};
        click_option {| opt_decl := "--shout";
                        opt_type := Coerce (Builtin Cbool);
                        opt_default := PBool false; opt_show_default := true;
                        opt_is_flag := true |}] /\
  (exists o,
     nth_error
       [click_option {| opt_decl := "-n"; opt_type := Coerce (Builtin Cint);
                        opt_default := PInt 1; opt_show_default := true;
                        opt_is_flag := false |};
        click_option {| opt_decl := "--shout";
                        opt_type := Coerce (Builtin Cbool);
                        opt_default := PBool false; opt_show_default := true;
                        opt_is_flag := true |}] 0 = Some (click_option o) /\
     (opt_is_flag o = true <-> int_cls = PClass (Builtin Cbool))).
Proof.
  split; [reflexivity|].
  exact (flag_iff_bool stringcase_spinalcase
           [("n", int_cls); ("shout", bool_cls)]
           [("n", PInt 1); ("shout", PBool false)] [] _ 0 "n" int_cls (PInt 1)
           eq_refl eq_refl eq_refl).
Defined.

Lemma distinct_gather : NoDup (map name (parameters gather)).
Proof. repeat constructor; cbn; intuition discriminate. Defined.

Lemma variadic_argument_witness :
  decorators_from_dicts stringcase_spinalcase
    [("paths", List_alias str_cls); ("names", PClass (Builtin Clist))] [] []
  = Ok [click_argument {| arg_decl := "paths";
                          arg_type := Coerce (Builtin Cstr);
                          arg_nargs := Some (-1)%Z |};
        click_argument {| arg_decl := "names";
                          arg_type := Coerce (Builtin Cstr);
                          arg_nargs := Some (-1)%Z |}] /\
  signature_to_decorators stringcase_spinalcase gather [] = Ok gather_decorators /\
  (exists out,
     decorators_from_dicts stringcase_spinalcase
       [("paths", List_alias str_cls); ("names", PClass (Builtin Clist))] [] []
     = Ok out /\
     (forall origin a rest,
        List_alias str_cls = PGenericAlias origin (a :: rest) ->
        exists t, click_type a PNone = Ok t /\
          nth_error out 0
          = Some (click_argument {| arg_decl := "paths"; arg_type := t;
                                    arg_nargs := Some (-1)%Z |})) /\
     (forall c, List_alias str_cls = PClass c ->
        subclass c (Builtin Clist) = true ->
        nth_error out 0
        = Some (click_argument {| arg_decl := "paths";
                                  arg_type := Coerce (Builtin Cstr);
                                  arg_nargs := Some (-1)%Z |}))) /\
  (exists out a b,
     type_argument int_cls = Some a /\
     (forall c, int_cls = PClass c -> a = int_cls) /\
     typing_List int_cls = Ok (List_alias a) /\
     signature_to_decorators stringcase_spinalcase gather [] = Ok out /\
     nth_error out 0 = Some b /\
     decorator_for stringcase_spinalcase
       (signature_defaults (parameters gather)) "values" (List_alias a)
     = Ok b /\
     (inspect_empty = inspect_empty ->
      exists t, click_type a PNone = Ok t /\
        b = click_argument {| arg_decl := "values"; arg_type := t;
                              arg_nargs := Some (-1)%Z |})).
Proof.
  split; [reflexivity|]. split; [reflexivity|].
  destruct (variadic_argument stringcase_spinalcase) as [Hitem Hsig].
  split.
  - exact (Hitem [("paths", List_alias str_cls);
                  ("names", PClass (Builtin Clist))] [] [] 0 "paths"
                 (List_alias str_cls) eq_refl eq_refl eq_refl).
  - exact (Hsig gather [] 0
                {| name := "values"; kind := VAR_POSITIONAL;
                   default := inspect_empty; annotation := int_cls |}
                distinct_gather eq_refl eq_refl eq_refl).
Defined.

(** C2, as the claim has it, fails on [def copy(paths: list[str])]: the
    alias of the builtin class is a parameterized generic but no instance
    of [typing._GenericAlias]; the parameter gets an argument for one value
    ([nargs] is not passed) and no validator. *)
Lemma variadic_argument_counterexample :
  dict_get (signature_defaults (parameters copy_builtin)) "paths" = None /\
  decorators_from_dicts stringcase_spinalcase [("paths", list_of_str)] [] []
  = Ok [click_argument {| arg_decl := "paths"; arg_type := NoValidator;
                          arg_nargs := None |}] /\
  signature_to_decorators stringcase_spinalcase copy_builtin []
  = Ok [click_argument {| arg_decl := "paths"; arg_type := NoValidator;
                          arg_nargs := None |}] /\
  arg_nargs {| arg_decl := "paths"; arg_type := NoValidator;
               arg_nargs := None |} <> Some (-1)%Z.
Proof.
  split; [reflexivity|]. split; [reflexivity|]. split; [reflexivity|].
  discriminate.
Qed.

Lemma distinct_abc : NoDup (map name (parameters f_abc)).
Proof. repeat constructor; cbn; intuition discriminate. Defined.

Lemma distinct_report : NoDup (map name (parameters report)).
Proof. repeat constructor; cbn; intuition discriminate. Defined.

Lemma order_preserved_witness :
  signature_to_decorators stringcase_spinalcase f_abc [] = Ok abc_decorators /\
  command_from_decorators (Some (Function f_abc)) abc_decorators []
  = Ok abc_command /\
  applied (callback abc_command) = rev abc_decorators /\
  params abc_command = abc_decorators /\
  exists ds bs cmd,
    signature_to_decorators stringcase_spinalcase f_abc [] = Ok ds /\
    Forall2 (fun p b =>
               (exists t, declared_type p = Ok t /\
                  decorator_for stringcase_spinalcase
                    (signature_defaults (parameters f_abc)) (name p) t
                  = Ok b) /\
               (declaration b = Some (stringcase_spinalcase (name p)) \/
                declaration b
                = Some (flag_name stringcase_spinalcase (name p))))
            (visible (parameters f_abc)) bs /\
    filter is_param ds = bs /\
    command_from_decorators (Some (Function f_abc)) ds [] = Ok cmd /\
    applied (callback cmd) = rev ds /\
    params cmd = bs.
Proof.
  split; [reflexivity|]. split; [reflexivity|]. split; [reflexivity|].
  split; [reflexivity|].
  exact (order_preserved stringcase_spinalcase f_abc [] distinct_abc
           eq_refl eq_refl eq_refl).
Defined.

Lemma ctx_first_parameter_witness :
  signature_to_decorators stringcase_spinalcase report []
  = Ok report_decorators /\
  command_from_decorators (Some (Function report)) report_decorators []
  = Ok report_command /\
  hd_error (applied (callback report_command)) = Some click_pass_context /\
  exists bs,
    Forall2 (fun p b =>
               name p <> "ctx" /\
               exists t, declared_type p = Ok t /\
                 decorator_for stringcase_spinalcase
                   (signature_defaults (parameters report)) (name p) t
                 = Ok b)
            (visible (parameters report)) bs /\
    Forall (fun b => is_param b = true) bs /\
    report_decorators
    = [] ++ bs ++
      (if first_is_ctx (parameters report) then [click_pass_context] else []) /\
    (first_is_ctx (parameters report) = true ->
     forall settings cmd,
       command_from_decorators (Some (Function report)) report_decorators
         settings = Ok cmd ->
       hd_error (applied (callback cmd)) = Some click_pass_context).
Proof.
  split; [reflexivity|]. split; [reflexivity|]. split; [reflexivity|].
  exact (ctx_first_parameter stringcase_spinalcase report [] _
           distinct_report eq_refl).
Defined.

(** C4, as the claim has it, fails on [late]: its second parameter is
    named [ctx], and no [click.pass_context] is emitted. *)
Lemma ctx_anywhere_counterexample :
  In "ctx" (map name (parameters late)) /\
  signature_to_decorators stringcase_spinalcase late []
  = Ok [click_argument {| arg_decl := "a"; arg_type := Coerce (Builtin Cstr);
                          arg_nargs := None |}] /\
  ~ In click_pass_context
       [click_argument {| arg_decl := "a"; arg_type := Coerce (Builtin Cstr);
                          arg_nargs := None |}].
Proof.
  split; [cbn; auto|]. split; [reflexivity|].
  intros [H|[]]. discriminate H.
Qed.

Lemma help_iff_decorators_witness :
  dict_mem "command" [("help", PStr "Greet somebody.")] = false /\
  dict_mem "no_args_is_help" [("help", PStr "Greet somebody.")] = false /\
  command_from_decorators (Some (Function greet)) greet_decorators
    [("help", PStr "Greet somebody.")] = Ok greet_help_command /\
  no_args_is_help greet_help_command = Some (PBool true) /\
  exists cmd,
    command_from_decorators (Some (Function greet)) greet_decorators
      [("help", PStr "Greet somebody.")] = Ok cmd /\
    (no_args_is_help cmd = Some (PBool true) <-> greet_decorators <> []) /\
    (no_args_is_help cmd = Some (PBool false) <-> greet_decorators = []).
Proof.
  split; [reflexivity|]. split; [reflexivity|]. split; [reflexivity|].
  split; [reflexivity|].
  exact (help_iff_decorators (Function greet) greet_decorators
           [("help", PStr "Greet somebody.")] eq_refl eq_refl).
Defined.

Lemma click_type_range_witness :
  click_type (PTuple [PInt 1; PInt 10]) PNone
  = Ok (IntRange [PInt 1; PInt 10]) /\
  click_type (PTuple [PFloat 0; PFloat 4607182418800017408]) PNone
  = Ok (FloatRange [PFloat 0; PFloat 4607182418800017408]) /\
  click_type (PTuple [PBool true; PInt 3; PStr "x"]) PNone
  = Ok (IntRange [PBool true; PInt 3; PStr "x"]).
Proof.
  split; [|split].
  - exact (proj1 (click_type_range (PInt 1) (PInt 10) PNone [])
                 eq_refl eq_refl).
  - exact (proj1 (proj2 (click_type_range (PFloat 0)
                           (PFloat 4607182418800017408) PNone []))
                 eq_refl eq_refl).
  - exact (proj2 (proj2 (click_type_range PNone PNone PNone
                           [PBool true; PInt 3; PStr "x"]))
                 eq_refl).
Defined.

Lemma click_type_uuid_witness :
  subclass Token (Builtin CUUID) = true /\
  subclass Token (Builtin Cdatetime) = false /\
  subclass Token (Builtin Ctuple) = false /\
  click_type (PClass Token) (PStr "12345678-1234-5678-1234-567812345678")
  = Ok (UUID (PStr "12345678-1234-5678-1234-567812345678")).
Proof.
  split; [reflexivity|]. split; [reflexivity|]. split; [reflexivity|].
  exact (click_type_uuid Token (PStr "12345678-1234-5678-1234-567812345678")
           eq_refl eq_refl eq_refl).
Defined.

Lemma istype_total_witness :
  (istype (PInt 3) (PClass (Builtin Clist)) = Ok false /\
   issubclass (PInt 3) (PClass (Builtin Clist)) = Raise TypeError) /\
  istype bool_cls int_cls = issubclass bool_cls int_cls /\
  exists b, istype (List_alias int_cls) (PClass (Builtin Clist)) = Ok b /\
    (b = true ->
     exists c, List_alias int_cls = PClass c /\
               subclass c (Builtin Clist) = true).
Proof.
  split; [|split].
  - exact (proj1 (istype_total (PInt 3) (PClass (Builtin Clist))) eq_refl).
  - exact (proj1 (proj2 (istype_total bool_cls int_cls)) eq_refl).
  - exact (proj2 (proj2 (istype_total (List_alias int_cls) PNone))
                 (Builtin Clist)).
Defined.

(** * Further properties of the code *)

(** ** click_type: recursion, errors and the role of the default *)

(** [click_type] on an object that is not an alias: a case for each rule. *)
Lemma click_type_end (y default : pyobj) :
  isinstance y (Builtin C_GenericAlias) = false ->
  (exists c, y = PClass c /\
     click_type y default =
     if subclass c (Builtin Cdatetime) then Ok DateTime
     else if subclass c (Builtin Ctuple) then Raise AttributeError
     else if subclass c (Builtin CUUID) then Ok (UUID default)
     else if is_builtin y Clist then Ok NoValidator
     else if subclass c (Builtin Cset) then Ok (Choice y)
     else if subclass c (Builtin CPath) then Ok Path
     else if is_builtin y Cobject || is_builtin y CAny then Ok NoValidator
     else Ok (Coerce c)) \/
  (exists items, y = PTuple items /\
     (click_type y default = Ok (IntRange items) \/
      click_type y default = Ok (FloatRange items) \/
      click_type y default = Ok NoValidator)) \/
  click_type y default = Ok NoValidator.
Proof.
  intros H. destruct y; try (right; right; reflexivity).
  - right. left. exists items. split; [reflexivity|]. cbn [click_type].
    destruct (forallb _ _); [auto|]. destruct (forallb _ _); auto.
  - left. exists c. split; reflexivity.
  - discriminate H.
Qed.

(** X1: [click_type] raises in two ways only.  It raises [IndexError]
    exactly when the chain of first type arguments ends in an alias without
    arguments, and [AttributeError] exactly when it ends in a class derived
    from [tuple] but not from [datetime.datetime]. *)
Theorem click_type_errors (x default : pyobj) :
  (click_type x default = Raise IndexError <-> innermost x = None) /\
  (click_type x default = Raise AttributeError <->
   exists c, innermost x = Some (PClass c) /\
             subclass c (Builtin Cdatetime) = false /\
             subclass c (Builtin Ctuple) = true) /\
  (forall e, click_type x default = Raise e ->
             e = IndexError \/ e = AttributeError).
Proof.
  rewrite click_type_innermost.
  destruct (innermost x) as [y|] eqn:Hy.
  2:{ split; [tauto|]. split; [|intros e H; injection H; auto].
      split; [discriminate|]. intros (c & H & _). discriminate H. }
  pose proof (innermost_not_alias _ _ Hy) as Hna.
  destruct (click_type_end y default Hna)
    as [(c & -> & Hc)|[(items & -> & Hc)|Hc]].
  - rewrite Hc. cbn [is_builtin].
    destruct (subclass c (Builtin Cdatetime)) eqn:Hd.
    { split; [split; discriminate|]. split; [|discriminate].
      split; [discriminate|]. intros (c' & H & H' & _).
      injection H as <-. congruence. }
    destruct (subclass c (Builtin Ctuple)) eqn:Ht.
    { split; [split; discriminate|]. split.
      - split; [|reflexivity]. intros _. now exists c.
      - intros e H. injection H; auto. }
    assert (Hno : forall r : result validator,
               (exists v, r = Ok v) ->
               (r = Raise IndexError <-> Some (PClass c) = None) /\
               (r = Raise AttributeError <->
                exists c', Some (PClass c) = Some (PClass c') /\
                  subclass c' (Builtin Cdatetime) = false /\
                  subclass c' (Builtin Ctuple) = true) /\
               (forall e, r = Raise e -> e = IndexError \/ e = AttributeError)).
    { intros r [v ->]. split; [split; discriminate|]. split; [|discriminate].
      split; [discriminate|]. intros (c' & H & _ & H').
      injection H as <-. congruence. }
    apply Hno.
    repeat match goal with
           | |- context [if ?b then _ else _] => destruct b
           end; eexists; reflexivity.
  - split; [split; [|discriminate]|split; [split|]].
    + destruct Hc as [Hc|[Hc|Hc]]; rewrite Hc; discriminate.
    + destruct Hc as [Hc|[Hc|Hc]]; rewrite Hc; discriminate.
    + intros (c & H & _). discriminate H.
    + intros e. destruct Hc as [Hc|[Hc|Hc]]; rewrite Hc; discriminate.
  - rewrite Hc. split; [split; discriminate|]. split; [|discriminate].
    split; [discriminate|]. intros (c & H & Hd & Ht).
    injection H as ->. cbn in Hc. rewrite Hd, Ht in Hc. discriminate Hc.
Qed.

(** X2: the default reaches the result through the UUID rule alone: two
    defaults give the same result, or the two results are [click.UUID]
    called on the one and on the other. *)
Theorem click_type_default (x d d' : pyobj) :
  click_type x d = click_type x d' \/
  (click_type x d = Ok (UUID d) /\ click_type x d' = Ok (UUID d')).
Proof.
  rewrite !(click_type_innermost x).
  destruct (innermost x) as [y|] eqn:Hy; [|now left].
  pose proof (innermost_not_alias _ _ Hy) as Hna.
  destruct y; try (now left).
  cbn [click_type getattr_args].
  repeat match goal with
         | |- context [if ?b then _ else _] => destruct b
         end; auto.
Qed.

(** X3: a class comes back as the validator only when no rule takes it:
    it ends the chain of first type arguments, derives from none of
    [datetime.datetime], [tuple], [uuid.UUID], [set] and [pathlib.Path], and
    is none of [list], [object] and [typing.Any]. *)
Theorem click_type_coerce (x default : pyobj) (c : pyclass) :
  click_type x default = Ok (Coerce c) ->
  innermost x = Some (PClass c) /\
  subclass c (Builtin Cdatetime) = false /\
  subclass c (Builtin Ctuple) = false /\
  subclass c (Builtin CUUID) = false /\
  subclass c (Builtin Cset) = false /\
  subclass c (Builtin CPath) = false /\
  c <> Builtin Clist /\ c <> Builtin Cobject /\ c <> Builtin CAny.
Proof.
  rewrite click_type_innermost.
  destruct (innermost x) as [y|] eqn:Hy; [|discriminate].
  pose proof (innermost_not_alias _ _ Hy) as Hna.
  destruct (click_type_end y default Hna)
    as [(k & -> & Hk)|[(items & -> & Hk)|Hk]].
  - rewrite Hk.
    destruct (subclass k (Builtin Cdatetime)) eqn:H1; [discriminate|].
    destruct (subclass k (Builtin Ctuple)) eqn:H2; [discriminate|].
    destruct (subclass k (Builtin CUUID)) eqn:H3; [discriminate|].
    destruct (is_builtin (PClass k) Clist) eqn:Hl; [discriminate|].
    destruct (subclass k (Builtin Cset)) eqn:H4; [discriminate|].
    destruct (subclass k (Builtin CPath)) eqn:H5; [discriminate|].
    destruct (_ || _) eqn:Ho; [discriminate|].
    intros H. injection H as <-.
    apply orb_false_iff in Ho as [Ho Ha].
    repeat (split; [assumption || reflexivity|]).
    split; [|split]; intros ->; discriminate.
  - destruct Hk as [Hk|[Hk|Hk]]; rewrite Hk; discriminate.
  - rewrite Hk. discriminate.
Qed.

Lemma int_not_float (x : pyobj) :
  isinstance x (Builtin Cint) = true -> isinstance x (Builtin Cfloat) = false.
Proof. destruct x; cbn; congruence. Qed.

(** X4: a tuple value whose first two items are an integer and a float, in
    either order, maps to no validator. *)
Theorem click_type_mixed_tuple (a b default : pyobj) (rest : list pyobj) :
  isinstance a (Builtin Cint) = true ->
  isinstance b (Builtin Cfloat) = true ->
  click_type (PTuple (a :: b :: rest)) default = Ok NoValidator /\
  click_type (PTuple (b :: a :: rest)) default = Ok NoValidator.
Proof.
  intros Ha Hb. cbn [click_type firstn forallb].
  rewrite Ha, Hb, (int_not_float a Ha), (float_not_int b Hb). cbn. auto.
Qed.

(** An object that is neither a generic alias, nor a class, nor a tuple (a
    string annotation, [None]) maps to no validator, whatever the
    default. *)
Lemma click_type_plain_value (x default : pyobj) :
  isinstance x (Builtin C_GenericAlias) = false ->
  isinstance x (Builtin Ctype) = false ->
  isinstance x (Builtin Ctuple) = false ->
  click_type x default = Ok NoValidator.
Proof. destruct x; cbn; intros; try reflexivity; discriminate. Qed.

Section Coverage.

Variable spinalcase : string -> string.

(** ** decorators_from_dicts: shape, composition, defaults *)

(** X5: the loop keeps the decorators it starts from in front, adds one
    decorator per item, and every decorator it adds is an option or an
    argument. *)
Theorem decorators_from_dicts_shape (annotations defaults : dict pyobj)
  (decorators out : list decorator) :
  decorators_from_dicts spinalcase annotations defaults decorators = Ok out ->
  exists bs,
    out = decorators ++ bs /\
    List.length bs = List.length annotations /\
    Forall (fun b => is_param b = true) bs.
Proof.
  rewrite decorators_from_dicts_map. intros H.
  destruct (map_result _ annotations) as [bs|e] eqn:Hbs; cbn in H;
    [|discriminate].
  injection H as <-. apply map_result_Forall2 in Hbs.
  exists bs. split; [reflexivity|]. split.
  - symmetry. eapply Forall2_length; eauto.
  - clear -Hbs. induction Hbs as [|[k v] b l bs Hb _ IH]; constructor; auto.
    exact (decorator_for_is_param spinalcase _ _ _ _ Hb).
Qed.

(** X6: items can be handled in two runs: the loop over [a1 ++ a2] is the
    loop over [a1] followed by the loop over [a2] from what the first run
    returned, and raises where the first of the two raises. *)
Theorem decorators_from_dicts_app (a1 a2 defaults : dict pyobj) :
  forall decorators,
    decorators_from_dicts spinalcase (a1 ++ a2) defaults decorators =
    (mid <- decorators_from_dicts spinalcase a1 defaults decorators ;;
     decorators_from_dicts spinalcase a2 defaults mid).
Proof.
  induction a1 as [|[k v] a1 IH]; intros decorators; cbn; [reflexivity|].
  destruct (decorator_for spinalcase defaults k v) as [d|e]; cbn; auto.
Qed.

Lemma decorator_for_defaults (defaults defaults' : dict pyobj) (k : string)
  (v : pyobj) :
  dict_get defaults k = dict_get defaults' k ->
  decorator_for spinalcase defaults k v
  = decorator_for spinalcase defaults' k v.
Proof. unfold decorator_for. now intros ->. Qed.

(** X7: only the defaults of the annotated names count: two [defaults]
    that agree on the keys of [annotations] give the same result, whatever
    else they hold. *)
Theorem decorators_from_dicts_defaults (annotations defaults defaults'
  : dict pyobj) :
  (forall k, In k (keys annotations) ->
     dict_get defaults k = dict_get defaults' k) ->
  forall decorators,
    decorators_from_dicts spinalcase annotations defaults decorators
    = decorators_from_dicts spinalcase annotations defaults' decorators.
Proof.
  induction annotations as [|[k v] rest IH]; intros H decorators; cbn;
    [reflexivity|].
  rewrite (decorator_for_defaults defaults defaults' k v)
    by (apply H; now left).
  destruct (decorator_for spinalcase defaults' k v) as [d|e]; cbn; auto.
  apply IH. intros k' Hk'. apply H. now right.
Qed.

Lemma decorator_for_no_default (defaults : dict pyobj) (k : string)
  (v : pyobj) (b : decorator) :
  dict_get defaults k = None ->
  decorator_for spinalcase defaults k v = Ok b ->
  exists a, b = click_argument a /\ arg_decl a = spinalcase k.
Proof.
  unfold decorator_for. intros -> Hb.
  repeat match type of Hb with
         | context [bind ?c _] =>
             let E := fresh "E" in destruct c eqn:E; cbn [bind] in Hb;
             try discriminate Hb
         | context [match ?x with _ => _ end] =>
             let E := fresh "E" in destruct x eqn:E; try discriminate Hb
         end; injection Hb as <-; eauto.
Qed.

(** X8: the decorator of an item is an option exactly when its name has a
    default, and an argument exactly when it has none. *)
Theorem option_iff_default (annotations defaults : dict pyobj)
  (decorators out : list decorator) (i : nat) (k : string) (v : pyobj) :
  decorators_from_dicts spinalcase annotations defaults decorators = Ok out ->
  nth_error annotations i = Some (k, v) ->
  exists b,
    nth_error out (List.length decorators + i) = Some b /\
    ((exists o, b = click_option o) <-> dict_mem k defaults = true) /\
    ((exists a, b = click_argument a) <-> dict_mem k defaults = false).
Proof.
  intros Hout Hi.
  destruct (decorators_from_dicts_nth spinalcase _ _ _ _ _ _ _ Hout Hi)
    as (b & Hb & Hn).
  exists b. split; [exact Hn|].
  unfold dict_mem. destruct (dict_get defaults k) as [d|] eqn:Hd.
  - destruct (decorator_for_default spinalcase _ _ _ _ _ Hd Hb)
      as (t & _ & ->).
    split; split.
    + reflexivity.
    + intros _. eauto.
    + intros (a & H). discriminate H.
    + discriminate.
  - destruct (decorator_for_no_default _ _ _ _ Hd Hb) as (a & -> & _).
    split; split.
    + intros (o & H). discriminate H.
    + discriminate.
    + reflexivity.
    + intros _. eauto.
Qed.

(** X9: an item without default whose type is neither a generic alias nor
    a class derived from [list] yields a [click.argument] for one value:
    [nargs] is not passed, and the type is the mapped declared type. *)
Theorem required_argument (annotations defaults : dict pyobj)
  (decorators out : list decorator) (i : nat) (k : string) (v : pyobj) :
  decorators_from_dicts spinalcase annotations defaults decorators = Ok out ->
  nth_error annotations i = Some (k, v) ->
  dict_get defaults k = None ->
  isinstance v (Builtin C_GenericAlias) = false ->
  list_class v = false ->
  exists t,
    click_type v PNone = Ok t /\
    nth_error out (List.length decorators + i)
    = Some (click_argument {| arg_decl := spinalcase k;
                              arg_type := t;
                              arg_nargs := None |}).
Proof.
  intros Hout Hi Hd Ha Hl.
  destruct (decorators_from_dicts_nth spinalcase _ _ _ _ _ _ _ Hout Hi)
    as (b & Hb & Hn).
  unfold decorator_for in Hb. rewrite Hd, Ha in Hb.
  assert (Hist : istype v (PClass (Builtin Clist)) = Ok false).
  { unfold istype. destruct v; try reflexivity.
    cbn in Hl |- *. now rewrite Hl. }
  rewrite Hist in Hb. cbn [bind] in Hb.
  destruct (click_type v PNone) as [t|e]; cbn in Hb; [|discriminate].
  injection Hb as <-. now exists t.
Qed.

(** ** When the loop raises *)


(** ** decorators_from_dict and decorators_from_module *)

(** X11: a module without annotated names has no decorators.  With
    annotated names it has one decorator for each, in their order: an
    option with the value the name has in the module when it has one, an
    argument when it has none; names that are not annotated give
    nothing. *)
Theorem decorators_from_module_shape (object : pymodule) :
  (dict_get (vars object) "__annotations__" = None ->
   decorators_from_module spinalcase object = Ok []) /\
  (forall annotations out,
     dict_get (vars object) "__annotations__" = Some (PDict annotations) ->
     decorators_from_module spinalcase object = Ok out ->
     List.length out = List.length annotations /\
     forall i k v,
       nth_error annotations i = Some (k, v) ->
       exists b,
         nth_error out i = Some b /\
         match dict_get (vars object) k with
         | Some d => exists o, b = click_option o /\ opt_default o = d
         | None => exists a, b = click_argument a /\ arg_decl a = spinalcase k
         end).
Proof.
  unfold decorators_from_module, decorators_from_dict. split.
  - now intros ->.
  - intros annotations out -> Hout. split.
    + rewrite decorators_from_dicts_map in Hout.
      destruct (map_result _ annotations) as [bs|e] eqn:Hbs; cbn in Hout;
        [|discriminate].
      injection Hout as <-. apply map_result_Forall2 in Hbs.
      symmetry. eapply Forall2_length; eauto.
    + intros i k v Hi.
      destruct (decorators_from_dicts_nth spinalcase _ _ _ _ _ _ _ Hout Hi)
        as (b & Hb & Hn).
      exists b. split; [exact Hn|].
      destruct (dict_get (vars object) k) as [d|] eqn:Hd.
      * destruct (decorator_for_default spinalcase _ _ _ _ _ Hd Hb)
          as (t & _ & ->). eauto.
      * exact (decorator_for_no_default _ _ _ _ Hd Hb).
Qed.

(** ** signature_to_decorators: each parameter's decorator *)

(** X12: in the decorators of a signature, a parameter that is not named
    [ctx] has an option when it has a default and an argument when it has
    none.  The option carries that default, is declared with the hyphens,
    and is a flag when the type is [bool]; the argument is declared
    without hyphens. *)
Theorem signature_binding (f : pyfunction) (decorators out : list decorator)
  (i : nat) (p : parameter) :
  NoDup (map name (parameters f)) ->
  signature_to_decorators spinalcase f decorators = Ok out ->
  nth_error (visible (parameters f)) i = Some p ->
  exists b t,
    nth_error out (List.length decorators + i) = Some b /\
    declared_type p = Ok t /\
    if is_builtin (default p) C_empty
    then exists a, b = click_argument a /\ arg_decl a = spinalcase (name p)
    else exists o, b = click_option o /\
           opt_default o = default p /\
           opt_decl o = flag_name spinalcase (name p) /\
           opt_is_flag o = is_builtin t Cbool.
Proof.
  intros Hnd Hout Hi.
  destruct (signature_to_decorators_bindings spinalcase _ _ _ Hnd Hout)
    as (bs & Hbs & ->).
  destruct (Forall2_nth _ _ _ Hbs _ _ Hi) as (b & Hb & t & Ht & Hp).
  exists b, t. split; [now apply nth_error_bindings|]. split; [exact Ht|].
  assert (Hin : In p (parameters f)).
  { apply nth_error_In in Hi. now apply filter_In in Hi as [Hi _]. }
  pose proof (signature_defaults_get _ _ Hnd Hin) as Hget.
  destruct (is_builtin (default p) C_empty).
  - exact (decorator_for_no_default _ _ _ _ Hget Hp).
  - destruct (decorator_for_default spinalcase _ _ _ _ _ Hget Hp)
      as (ty & _ & ->). eexists. cbn. eauto.
Qed.

(** X13: a parameter without annotation and without default gets
    [inspect._empty] itself as the type of its argument; the argument is
    variadic when the parameter is var-positional. *)
Theorem unannotated_parameter (f : pyfunction)
  (decorators out : list decorator) (i : nat) (p : parameter) :
  NoDup (map name (parameters f)) ->
  signature_to_decorators spinalcase f decorators = Ok out ->
  nth_error (visible (parameters f)) i = Some p ->
  default p = inspect_empty ->
  annotation p = inspect_empty ->
  nth_error out (List.length decorators + i)
  = Some (click_argument
            {| arg_decl := spinalcase (name p);
               arg_type := Coerce (Builtin C_empty);
               arg_nargs := if is_var_positional (kind p)
                            then Some (-1)%Z else None |}).
Proof.
  intros Hnd Hout Hi Hdef Hann.
  destruct (signature_to_decorators_bindings spinalcase _ _ _ Hnd Hout)
    as (bs & Hbs & ->).
  destruct (Forall2_nth _ _ _ Hbs _ _ Hi) as (b & Hb & t & Ht & Hp).
  assert (Hin : In p (parameters f)).
  { apply nth_error_In in Hi. now apply filter_In in Hi as [Hi _]. }
  pose proof (signature_defaults_get _ _ Hnd Hin) as Hget.
  rewrite Hdef in Hget. cbn in Hget.
  apply nth_error_bindings. rewrite Hb. f_equal.
  unfold declared_type in Ht. rewrite Hann in Ht.
  unfold decorator_for in Hp. rewrite Hget in Hp.
  destruct (is_var_positional (kind p)); cbn in Ht; injection Ht as <-;
    cbn in Hp; now injection Hp as <-.
Qed.

(** X14: the command made from a function shows its help when run
    without arguments exactly when the function has a parameter, be it a
    lone [ctx] or parameters that all have defaults. *)
Theorem help_iff_parameters (f : pyfunction) (ds : list decorator)
  (settings : dict pyobj) (cmd : Command) :
  NoDup (map name (parameters f)) ->
  signature_to_decorators spinalcase f [] = Ok ds ->
  command_from_decorators (Some (Function f)) ds settings = Ok cmd ->
  (no_args_is_help cmd = Some (PBool true) <-> parameters f <> []) /\
  (no_args_is_help cmd = Some (PBool false) <-> parameters f = []).
Proof.
  intros Hnd Hds Hcmd.
  destruct (command_from_decorators_some _ _ _ _ Hcmd) as (_ & _ & ->).
  destruct (signature_to_decorators_bindings spinalcase _ _ _ Hnd Hds)
    as (bs & Hbs & ->).
  apply Forall2_length in Hbs. cbn [app].
  unfold visible, first_is_ctx in *.
  destruct (parameters f) as [|v rest].
  - destruct bs; [|discriminate Hbs]. cbn.
    split; split; congruence.
  - cbn in Hbs. destruct (String.eqb (name v) "ctx").
    + assert (H : nonempty (bs ++ [click_pass_context]) = true)
        by (destruct bs; reflexivity).
      rewrite H. split; split; congruence.
    + cbn in Hbs. destruct bs; [discriminate Hbs|]. cbn.
      split; split; congruence.
Qed.


(** ** command_from_decorators: keywords and the path without callable *)

Lemma dict_get_app {V : Type} (a b : dict V) (k : string) :
  dict_get (a ++ b) k =
  match dict_get a k with
  | Some v => Some v
  | None => dict_get b k
  end.
Proof.
  induction a as [|[k' v] a IH]; cbn; [reflexivity|].
  now destruct (String.eqb k' k).
Qed.

Lemma keywords_clash (k : string) (x : pyobj) (settings : dict pyobj) :
  dict_mem k settings = true ->
  keywords [(k, x)] settings = Raise TypeError.
Proof.
  unfold keywords. intros H.
  assert (E : existsb (fun kv => dict_mem (fst kv) [(k, x)]) settings = true).
  { induction settings as [|[k' v] rest IH]; [discriminate H|].
    unfold dict_mem in H. cbn in H. cbn -[String.eqb].
    unfold dict_mem at 1. cbn -[String.eqb].
    rewrite String.eqb_sym.
    destruct (String.eqb k' k); [reflexivity|].
    cbn. apply IH. exact H. }
  now rewrite E.
Qed.

(** X16: settings that carry [no_args_is_help] themselves make the call
    of [click.command] repeat that keyword: with a callable given,
    [command_from_decorators] raises [TypeError] whatever the decorators. *)
Theorem command_keyword_clash (c : callee) (ds : list decorator)
  (settings : dict pyobj) :
  dict_mem "no_args_is_help" settings = true ->
  command_from_decorators (Some c) ds settings = Raise TypeError.
Proof.
  intros H. unfold command_from_decorators.
  destruct (dict_mem "command" settings); [reflexivity|].
  cbn [bind fst snd]. now rewrite (keywords_clash _ _ _ H).
Qed.

(** X17: without a callable there must be a decorator, and the last one is
    taken for the callable: the others are called on it, from the last to
    the first, and the help setting counts those others alone. *)
Theorem command_without_callable (ds : list decorator)
  (settings : dict pyobj) (cmd : Command) :
  command_from_decorators None ds settings = Ok cmd ->
  exists init d,
    ds = init ++ [d] /\
    target (callback cmd) = Decorator d /\
    applied (callback cmd) = rev init /\
    no_args_is_help cmd = Some (PBool (nonempty init)).
Proof.
  destruct ds as [|x l] using rev_ind.
  { rewrite command_from_decorators_nothing. discriminate. }
  intros H. exists l, x. split; [reflexivity|].
  exact (command_from_decorators_none _ _ _ _ H).
Qed.

(** X18: the settings reach [click.command] as they are, after the help
    setting: each of them is found again among the keywords of the
    command, and the parameters of the command are the options and
    arguments among the decorators, in their order. *)
Theorem settings_reach_command (c : callee) (ds : list decorator)
  (settings : dict pyobj) (cmd : Command) :
  command_from_decorators (Some c) ds settings = Ok cmd ->
  attrs cmd = ("no_args_is_help", PBool (nonempty ds)) :: settings /\
  (forall k, k <> "no_args_is_help" ->
     dict_get (attrs cmd) k = dict_get settings k) /\
  params cmd = filter is_param ds.
Proof.
  unfold command_from_decorators.
  destruct (dict_mem "command" settings); [discriminate|].
  cbn [bind fst snd]. rewrite call_decorators. unfold keywords.
  destruct (existsb _ settings); cbn; [discriminate|].
  intros H. injection H as <-. cbn -[String.eqb].
  split; [reflexivity|]. split.
  - intros k Hk.
    destruct (String.eqb_spec "no_args_is_help" k) as [E|_];
      [now elim Hk|reflexivity].
  - unfold params. cbn.
    rewrite <- (rev_involutive (filter is_param (rev ds))).
    rewrite <- filter_rev. now rewrite !rev_involutive.
Qed.

(** ** autoclick *)

Lemma keywords_help (settings : dict pyobj) (x : pyobj) :
  keywords settings [("help", x)]
  = if dict_mem "help" settings then Raise TypeError
    else Ok (settings ++ [("help", x)]).
Proof.
  unfold keywords. cbn. now destruct (dict_mem "help" settings).
Qed.

(** X19: one function, with settings that hold none of [command], [help]
    and [no_args_is_help] (each would repeat a keyword or a parameter of a
    call): [autoclick] returns the command of that function, not the
    group; the decorators of its signature are called on the function
    from the last to the first, and its docstring is the [help] keyword. *)
Theorem autoclick_function (f : pyfunction) (group : option Group)
  (settings : dict pyobj) (ds : list decorator) :
  dict_mem "command" settings = false ->
  dict_mem "help" settings = false ->
  dict_mem "no_args_is_help" settings = false ->
  signature_to_decorators spinalcase f [] = Ok ds ->
  exists cmd,
    autoclick spinalcase [IFunction f] group settings = Ok (RCommand cmd) /\
    target (callback cmd) = Function f /\
    applied (callback cmd) = rev ds /\
    dict_get (attrs cmd) "help" = Some (fn_doc f) /\
    no_args_is_help cmd = Some (PBool (nonempty ds)).
Proof.
  intros Hc Hh Hn Hds. unfold autoclick. cbn [autoclick_loop].
  rewrite Hds, keywords_help, Hh. cbn [bind].
  assert (Hn' : dict_mem "no_args_is_help"
                  (settings ++ [("help", fn_doc f)]) = false).
  { unfold dict_mem in *. rewrite dict_get_app.
    now destruct (dict_get settings "no_args_is_help"). }
  assert (Hc' : dict_mem "command"
                  (settings ++ [("help", fn_doc f)]) = false).
  { unfold dict_mem in *. rewrite dict_get_app.
    now destruct (dict_get settings "command"). }
  rewrite (command_from_decorators_callable _ _ _ Hc' Hn'). cbn.
  eexists. split; [reflexivity|]. cbn.
  split; [reflexivity|]. split; [reflexivity|]. split; [|reflexivity].
  unfold dict_mem in Hh. rewrite dict_get_app.
  now destruct (dict_get settings "help").
Qed.

(** X20: [autoclick] passes the docstring of a function as [help]; settings
    that hold [help] as well make it raise [TypeError] at the first
    function whose signature it could read. *)
Theorem autoclick_help_clash (f : pyfunction) (rest : list item)
  (group : option Group) (settings : dict pyobj) (ds : list decorator) :
  dict_mem "help" settings = true ->
  signature_to_decorators spinalcase f [] = Ok ds ->
  autoclick spinalcase (IFunction f :: rest) group settings = Raise TypeError.
Proof.
  intros Hh Hds. unfold autoclick. cbn [autoclick_loop].
  now rewrite Hds, keywords_help, Hh.
Qed.


Lemma autoclick_loop_supported (object : list item) (settings : dict pyobj) :
  forall (app : Group) (c1 c2 : option returned),
    loop_group (autoclick_loop spinalcase object settings app c1)
    = loop_group (autoclick_loop spinalcase (filter supported object)
                                 settings app c2).
Proof.
  induction object as [|it rest IH]; intros app c1 c2; [reflexivity|].
  destruct it as [c|f|d|v]; cbn [filter supported autoclick_loop].
  - apply IH.
  - destruct (signature_to_decorators spinalcase f []) as [ds|e];
      cbn [bind]; [|reflexivity].
    destruct (keywords settings _) as [kw|e]; cbn [bind]; [|reflexivity].
    destruct (command_from_decorators _ ds kw) as [c|e]; cbn [bind];
      [apply IH|reflexivity].
  - destruct (decorators_from_dict spinalcase d) as [ds|e];
      cbn [bind]; [|reflexivity].
    destruct (command_from_decorators None ds settings) as [c|e];
      cbn [bind]; [apply IH|reflexivity].
  - apply IH.
Qed.

(** X22: items that are neither commands, nor functions, nor mappings are
    passed over: where the group is what comes back (not one item, and not
    one item left without them), [autoclick] returns, or raises, the same
    with and without them. *)
Theorem autoclick_skips_unsupported (object : list item)
  (group : option Group) (settings : dict pyobj) :
  List.length object <> 1 ->
  List.length (filter supported object) <> 1 ->
  autoclick spinalcase object group settings
  = autoclick spinalcase (filter supported object) group settings.
Proof.
  intros H1 H2. unfold autoclick.
  apply Nat.eqb_neq in H1, H2. rewrite H1, H2.
  set (app := match group with Some g => g | None => _ end).
  pose proof (autoclick_loop_supported object settings app None None) as H.
  destruct (autoclick_loop spinalcase object settings app None)
    as [[g c]|e];
    destruct (autoclick_loop spinalcase (filter supported object)
                             settings app None) as [[g' c']|e'];
    cbn in H |- *; congruence.
Qed.

(** X23: a mapping that annotates nothing makes the loop raise when it
    comes to it: there is no decorator to take for the callable, a
    [ValueError] of the unpacking; with settings that repeat the parameter
    [command] the call raises [TypeError] before that. *)
Theorem autoclick_mapping_unannotated (d : dict pyobj) (rest : list item)
  (settings : dict pyobj) (app : Group) (command : option returned) :
  dict_get d "__annotations__" = None \/
  dict_get d "__annotations__" = Some (PDict []) ->
  autoclick_loop spinalcase (IDict d :: rest) settings app command
  = Raise (if dict_mem "command" settings then TypeError else ValueError).
Proof.
  intros [H|H]; cbn [autoclick_loop]; unfold decorators_from_dict;
    rewrite H; cbn [decorators_from_dicts bind];
    now rewrite command_from_decorators_nothing.
Qed.

End Coverage.

(** ** The further properties on sample inputs *)

Lemma click_type_errors_witness :
  (click_type (PGenericAlias PNone []) PNone = Raise IndexError <->
   innermost (PGenericAlias PNone []) = None) /\
  (click_type (PClass (Builtin Ctuple)) PNone = Raise AttributeError <->
   exists c, innermost (PClass (Builtin Ctuple)) = Some (PClass c) /\
             subclass c (Builtin Cdatetime) = false /\
             subclass c (Builtin Ctuple) = true).
Proof.
  split.
  - exact (proj1 (click_type_errors (PGenericAlias PNone []) PNone)).
  - exact (proj1 (proj2 (click_type_errors (PClass (Builtin Ctuple)) PNone))).
Defined.

Lemma click_type_coerce_witness :
  click_type (List_alias int_cls) PNone = Ok (Coerce (Builtin Cint)) /\
  innermost (List_alias int_cls) = Some (PClass (Builtin Cint)) /\
  subclass (Builtin Cint) (Builtin Cdatetime) = false /\
  subclass (Builtin Cint) (Builtin Ctuple) = false /\
  subclass (Builtin Cint) (Builtin CUUID) = false /\
  subclass (Builtin Cint) (Builtin Cset) = false /\
  subclass (Builtin Cint) (Builtin CPath) = false /\
  Builtin Cint <> Builtin Clist /\ Builtin Cint <> Builtin Cobject /\
  Builtin Cint <> Builtin CAny.
Proof.
  split; [reflexivity|].
  exact (click_type_coerce (List_alias int_cls) PNone (Builtin Cint) eq_refl).
Defined.

Lemma click_type_mixed_tuple_witness :
  click_type (PTuple [PInt 1; PFloat 4612811918334230528]) PNone
  = Ok NoValidator /\
  click_type (PTuple [PFloat 4612811918334230528; PInt 1]) PNone
  = Ok NoValidator.
Proof.
  exact (click_type_mixed_tuple (PInt 1) (PFloat 4612811918334230528) PNone []
           eq_refl eq_refl).
Defined.

Lemma click_type_plain_value_witness :
  click_type (PStr "int") (PInt 3) = Ok NoValidator.
Proof.
  exact (click_type_plain_value (PStr "int") (PInt 3) eq_refl eq_refl eq_refl).
Defined.

Lemma decorators_from_dicts_shape_witness :
  decorators_from_dicts stringcase_spinalcase greet_annotations greet_defaults
    [click_pass_context]
  = Ok (click_pass_context :: greet_decorators) /\
  exists bs,
    click_pass_context :: greet_decorators = [click_pass_context] ++ bs /\
    List.length bs = List.length greet_annotations /\
    Forall (fun b => is_param b = true) bs.
Proof.
  split; [reflexivity|].
  exact (decorators_from_dicts_shape stringcase_spinalcase greet_annotations
           greet_defaults [click_pass_context] _ eq_refl).
Defined.

Lemma decorators_from_dicts_defaults_witness :
  decorators_from_dicts stringcase_spinalcase greet_annotations
    greet_defaults []
  = decorators_from_dicts stringcase_spinalcase greet_annotations
      (("verbose", PBool true) :: greet_defaults) [].
Proof.
  refine (decorators_from_dicts_defaults stringcase_spinalcase
            greet_annotations greet_defaults
            (("verbose", PBool true) :: greet_defaults) _ []).
  intros k [<-|[<-|[]]]; reflexivity.
Defined.

Lemma option_iff_default_witness :
  exists b,
    nth_error greet_decorators 0 = Some b /\
    ((exists o, b = click_option o) <-> dict_mem "name" greet_defaults = true) /\
    ((exists a, b = click_argument a) <->
     dict_mem "name" greet_defaults = false).
Proof.
  exact (option_iff_default stringcase_spinalcase greet_annotations
           greet_defaults [] greet_decorators 0 "name" str_cls
           eq_refl eq_refl).
Defined.

Lemma required_argument_witness :
  exists t,
    click_type str_cls PNone = Ok t /\
    nth_error greet_decorators 0
    = Some (click_argument {| arg_decl := "name"; arg_type := t;
                              arg_nargs := None |}).
Proof.
  exact (required_argument stringcase_spinalcase greet_annotations
           greet_defaults [] greet_decorators 0 "name" str_cls
           eq_refl eq_refl eq_refl eq_refl eq_refl).
Defined.


Lemma decorators_from_module_shape_witness :
  decorators_from_module stringcase_spinalcase conf = Ok conf_decorators /\
  List.length conf_decorators = 2 /\
  (exists b, nth_error conf_decorators 1 = Some b /\
     exists o, b = click_option o /\ opt_default o = PInt 8080) /\
  (exists b, nth_error conf_decorators 0 = Some b /\
     exists a, b = click_argument a /\ arg_decl a = "host") /\
  decorators_from_module stringcase_spinalcase
    {| vars := [("debug", PBool true)] |} = Ok [].
Proof.
  split; [reflexivity|].
  destruct (proj2 (decorators_from_module_shape stringcase_spinalcase conf)
              [("host", str_cls); ("port", int_cls)] conf_decorators
              eq_refl eq_refl) as [Hlen Hnth].
  split; [exact Hlen|]. split; [|split].
  - exact (Hnth 1 "port" int_cls eq_refl).
  - exact (Hnth 0 "host" str_cls eq_refl).
  - exact (proj1 (decorators_from_module_shape stringcase_spinalcase
                    {| vars := [("debug", PBool true)] |}) eq_refl).
Defined.

Lemma distinct_greet : NoDup (map name (parameters greet)).
Proof. repeat constructor; cbn; intuition discriminate. Defined.


Lemma distinct_f_abc : NoDup (map name (parameters f_abc)).
Proof. repeat constructor; cbn; intuition discriminate. Defined.

Lemma signature_binding_witness :
  signature_to_decorators stringcase_spinalcase greet [] = Ok greet_decorators /\
  exists b t,
    nth_error greet_decorators 1 = Some b /\
    Ok bool_cls = Ok t /\
    exists o, b = click_option o /\
      opt_default o = PBool false /\
      opt_decl o = flag_name stringcase_spinalcase "shout" /\
      opt_is_flag o = is_builtin t Cbool.
Proof.
  split; [reflexivity|].
  exact (signature_binding stringcase_spinalcase greet [] greet_decorators 1
           {| name := "shout"; kind := KEYWORD_ONLY;
              default := PBool false; annotation := bool_cls |}
           distinct_greet eq_refl eq_refl).
Defined.

Lemma unannotated_parameter_witness :
  nth_error
    [click_argument {| arg_decl := "a"; arg_type := Coerce (Builtin C_empty);
                       arg_nargs := None |};
     click_argument {| arg_decl := "b"; arg_type := Coerce (Builtin C_empty);
                       arg_nargs := None |};
     click_argument {| arg_decl := "c"; arg_type := Coerce (Builtin C_empty);
                       arg_nargs := None |}] 1
  = Some (click_argument {| arg_decl := "b";
                            arg_type := Coerce (Builtin C_empty);
                            arg_nargs := None |}).
Proof.
  exact (unannotated_parameter stringcase_spinalcase f_abc [] _ 1
           (positional "b" inspect_empty)
           distinct_f_abc eq_refl eq_refl eq_refl eq_refl).
Defined.

Lemma help_iff_parameters_witness :
  command_from_decorators (Some (Function greet)) greet_decorators []
  = Ok greet_command /\
  (no_args_is_help greet_command = Some (PBool true) <->
   parameters greet <> []) /\
  (no_args_is_help greet_command = Some (PBool false) <->
   parameters greet = []).
Proof.
  split; [reflexivity|].
  exact (help_iff_parameters stringcase_spinalcase greet greet_decorators []
           greet_command distinct_greet eq_refl eq_refl).
Defined.



Lemma command_keyword_clash_witness :
  dict_mem "no_args_is_help" [("no_args_is_help", PBool false)] = true /\
  command_from_decorators (Some (Function greet)) greet_decorators
    [("no_args_is_help", PBool false)] = Raise TypeError.
Proof.
  split; [reflexivity|].
  exact (command_keyword_clash (Function greet) greet_decorators
           [("no_args_is_help", PBool false)] eq_refl).
Defined.

Lemma command_without_callable_witness :
  command_from_decorators None greet_decorators [] = Ok bodyless_command /\
  exists init d,
    greet_decorators = init ++ [d] /\
    target (callback bodyless_command) = Decorator d /\
    applied (callback bodyless_command) = rev init /\
    no_args_is_help bodyless_command = Some (PBool (nonempty init)).
Proof.
  split; [reflexivity|].
  exact (command_without_callable greet_decorators [] bodyless_command
           eq_refl).
Defined.

Lemma settings_reach_command_witness :
  command_from_decorators (Some (Function greet)) greet_decorators
    [("help", PStr "Greet somebody.")] = Ok greet_help_command /\
  attrs greet_help_command
  = ("no_args_is_help", PBool (nonempty greet_decorators))
    :: [("help", PStr "Greet somebody.")] /\
  (forall k, k <> "no_args_is_help" ->
     dict_get (attrs greet_help_command) k
     = dict_get [("help", PStr "Greet somebody.")] k) /\
  params greet_help_command = filter is_param greet_decorators.
Proof.
  split; [reflexivity|].
  exact (settings_reach_command (Function greet) greet_decorators
           [("help", PStr "Greet somebody.")] greet_help_command eq_refl).
Defined.

Lemma autoclick_function_witness :
  exists cmd,
    autoclick stringcase_spinalcase [IFunction greet] None []
    = Ok (RCommand cmd) /\
    target (callback cmd) = Function greet /\
    applied (callback cmd) = rev greet_decorators /\
    dict_get (attrs cmd) "help" = Some (fn_doc greet) /\
    no_args_is_help cmd = Some (PBool (nonempty greet_decorators)).
Proof.
  exact (autoclick_function stringcase_spinalcase greet None []
           greet_decorators eq_refl eq_refl eq_refl eq_refl).
Defined.

Lemma autoclick_help_clash_witness :
  dict_mem "help" [("help", PStr "Say hello.")] = true /\
  autoclick stringcase_spinalcase [IFunction greet; ICommand other_command]
    None [("help", PStr "Say hello.")] = Raise TypeError.
Proof.
  split; [reflexivity|].
  exact (autoclick_help_clash stringcase_spinalcase greet
           [ICommand other_command] None [("help", PStr "Say hello.")]
           greet_decorators eq_refl eq_refl).
Defined.


Lemma autoclick_skips_unsupported_witness :
  autoclick stringcase_spinalcase
    [IOther (PInt 5); ICommand other_command; IOther PNone;
     IFunction greet] None []
  = autoclick stringcase_spinalcase
      [ICommand other_command; IFunction greet] None [].
Proof.
  refine (autoclick_skips_unsupported stringcase_spinalcase
            [IOther (PInt 5); ICommand other_command; IOther PNone;
             IFunction greet] None [] _ _); cbn; discriminate.
Defined.

Lemma autoclick_mapping_unannotated_witness :
  autoclick_loop stringcase_spinalcase
    [IDict [("port", PInt 8080)]; IFunction greet] []
    {| commands := [] |} None
  = Raise ValueError /\
  autoclick_loop stringcase_spinalcase
    [IDict [("port", PInt 8080)]; IFunction greet] [("command", PInt 3)]
    {| commands := [] |} None
  = Raise TypeError.
Proof.
  split.
  - exact (autoclick_mapping_unannotated stringcase_spinalcase
             [("port", PInt 8080)] [IFunction greet] [] {| commands := [] |}
             None (or_introl eq_refl)).
  - exact (autoclick_mapping_unannotated stringcase_spinalcase
             [("port", PInt 8080)] [IFunction greet] [("command", PInt 3)]
             {| commands := [] |} None (or_introl eq_refl)).
Defined.

(** ** typing.List and the keywords of the calls, on sample inputs *)

Example typing_List_None :
  typing_List PNone = Ok (List_alias (PClass (Builtin CNoneType))).
Proof. reflexivity. Qed.

Example typing_List_tuple :
  typing_List (PTuple [PInt 1; PInt 10]) = Raise TypeError.
Proof. reflexivity. Qed.

Example typing_List_one_item :
  typing_List (PTuple [int_cls]) = Ok (List_alias int_cls).
Proof. reflexivity. Qed.

Example spread_signature :
  signature_to_decorators stringcase_spinalcase spread [] = Raise TypeError.
Proof. reflexivity. Qed.

Example command_keyword :
  command_from_decorators (Some (Function greet)) greet_decorators
    [("command", PInt 3)] = Raise TypeError.
Proof. reflexivity. Qed.

Example autoclick_command_keyword :
  autoclick stringcase_spinalcase [IFunction greet] None [("command", PInt 3)]
  = Raise TypeError.
Proof. reflexivity. Qed.
